(** * Filter and validation compiler: a shallow embedding

    The development follows three Python modules of the repository:
    [advanced_filter_validator.py] (filter tree, JSON parser, validation
    rules, query builder), [class_based_filter.py] (one class per operator,
    [FilterParser]) and [dataset_validator.py] (validation rules).

    Python values are a tagged union, raised exceptions are the [Raise]
    branch of a result monad, and the nodes of the sqlglot expression
    library are a free term algebra. The string builtins that work on
    code points ([str.upper], iteration over a [str]) are parameters,
    specified on ASCII text. *)

From Stdlib Require Import Ascii.
From stdpp Require Import gmap strings list.

Set Warnings "-register-all,-clear-no-such-hyp".
Local Open Scope string_scope.
Local Open Scope list_scope.

(** ** Python values, exceptions, results *)

Module py.

(** A dynamically typed Python value: what [json.loads] produces, plus
    [bytes]. A float keeps its source text; nothing in the modules below
    computes with it. A dict is the list of its items in insertion order,
    the order in which it is iterated; its keys are pairwise distinct. *)
Inductive value :=
| None_
| Bool (b : bool)
| Int (n : Z)
| Float (repr : string)
| Str (s : string)
| Bytes (b : list ascii)
| List_ (l : list value)
| Dict (d : list (string * value)).

(** The exceptions the modules raise themselves or provoke in a builtin. *)
Inductive exn :=
| ValueError (msg : string)
| KeyError (key : string)
| IndexError (msg : string)
| TypeError (msg : string)
| AttributeError (msg : string)
| NotImplementedError.

Inductive result (A : Type) :=
| Ok (a : A)
| Raise (e : exn).
Arguments Ok {A} a.
Arguments Raise {A} e.

Definition bind {A B} (m : result A) (k : A → result B) : result B :=
  match m with
  | Ok a => k a
  | Raise e => Raise e
  end.

#[global] Instance result_ret : MRet result := @Ok.
#[global] Instance result_bind : MBind result := λ A B k m, bind m k.

(** A list comprehension whose body may raise: elements are evaluated
    left to right and the first exception escapes. *)
Definition comprehension {A B} (f : A → result B) : list A → result (list B) :=
  fix go l :=
    match l with
    | [] => Ok []
    | x :: l' => y ← f x; ys ← go l'; Ok (y :: ys)
    end.

(** [isinstance(v, str)] *)
Definition is_str (v : value) : bool :=
  match v with Str _ => true | _ => false end.

(** [isinstance(v, (str, bytes))] *)
Definition is_str_or_bytes (v : value) : bool :=
  match v with Str _ | Bytes _ => true | _ => false end.

(** [isinstance(v, Iterable)] on the values above. *)
Definition is_iterable (v : value) : bool :=
  match v with
  | Str _ | Bytes _ | List_ _ | Dict _ => true
  | _ => false
  end.

(** Upper-casing and splitting of ASCII text: the lower-case letters move
    to upper case and every other character stays; every character is a
    string of its own. *)
Definition upper_ascii (c : ascii) : ascii :=
  let n := N_of_ascii c in
  if ((97 <=? n) && (n <=? 122))%N then ascii_of_N (n - 32) else c.

Fixpoint ascii_upper (s : string) : string :=
  match s with
  | EmptyString => EmptyString
  | String c s' => String (upper_ascii c) (ascii_upper s')
  end.

Fixpoint ascii_chars (s : string) : list string :=
  match s with
  | EmptyString => []
  | String c s' => String c EmptyString :: ascii_chars s'
  end.

(** A string is its UTF-8 text; it is ASCII when every byte is below 128. *)
Fixpoint is_ascii (s : string) : bool :=
  match s with
  | EmptyString => true
  | String c s' => (N_of_ascii c <? 128)%N && is_ascii s'
  end.

(** The builtins of [str] that work on code points: [upper] is
    [str.upper], [chars] is what iterating over a [str] enumerates. Both
    are taken as they are in Python; what is used of them is their
    behaviour on ASCII text. *)
Class Text := {
  upper : string → string;
  chars : string → list string;
  upper_ascii_text : ∀ s, is_ascii s = true → upper s = ascii_upper s;
  chars_ascii_text : ∀ s, is_ascii s = true → chars s = ascii_chars s
}.

(** The two builtins on ASCII text, for instances whose strings are all
    ASCII. *)
Definition ascii_text : Text :=
  {| upper := ascii_upper;
     chars := ascii_chars;
     upper_ascii_text := λ s _, eq_refl;
     chars_ascii_text := λ s _, eq_refl |}.

(** What [for v in x] (and [tuple(x)]) enumerates: the characters of a
    string, the bytes of a bytes object as integers, the elements of a
    list, the keys of a dict. [None] stands for the [TypeError] of a
    value that is not iterable. *)
Definition iter `{Text} (v : value) : option (list value) :=
  match v with
  | Str s => Some (Str <$> chars s)
  | Bytes b => Some ((λ c, Int (Z.of_N (N_of_ascii c))) <$> b)
  | List_ l => Some l
  | Dict d => Some (Str <$> d.*1)
  | _ => None
  end.

End py.

(** ** The sqlglot expression nodes the modules build *)

Module exp.

(** Node classes are free constructors that carry the keyword arguments
    the source passes ([this], [expression], [expressions], [table],
    [distinct]). [Literal_string] and [Literal_number] are the results of
    [exp.Literal.string(v)] and [exp.Literal.number(v)]; [Column] that of
    [exp.column(name, table=t)]; [Table] that of [exp.table_(name)];
    [Select] that of [exp.select(...).from_(...).where(...)]. *)
Inductive Expression :=
| Literal_string (this : string)
| Literal_number (this : py.value)
| Column (this : string) (table : string)
| Table (this : string)
| Star
| Null
| Boolean (this : bool)
| EQ (this expression : Expression)
| NEQ (this expression : Expression)
| GT (this expression : Expression)
| LT (this expression : Expression)
| GTE (this expression : Expression)
| LTE (this expression : Expression)
| Like (this expression : Expression)
| In (this : Expression) (expressions : list Expression)
| Tuple (expressions : list Expression)
| And (this expression : Expression)
| Or (this expression : Expression)
| Paren (this : Expression)
| Select (expressions : list Expression) (from_ where_ : Expression).

Definition column (name table : string) : Expression := Column name table.
Definition table_ (name : string) : Expression := Table name.

(** [exp.IsNot] and [exp.count]: the module [sqlglot.expressions] defines
    neither name (it has the classes [Is], [Not] and [Count]), so
    evaluating the attribute raises before any argument is used. *)
Definition IsNot (this expression : Expression) : py.result Expression :=
  py.Raise (py.AttributeError "module 'sqlglot.expressions' has no attribute 'IsNot'").

Definition count (this : Expression) (distinct : bool) : py.result Expression :=
  py.Raise (py.AttributeError "module 'sqlglot.expressions' has no attribute 'count'").
Definition true : Expression := Boolean Datatypes.true.

(** [isinstance(e, Connector)]: the binary connectives. *)
Definition is_connector (e : Expression) : bool :=
  match e with And _ _ | Or _ _ => Datatypes.true | _ => false end.

(** sqlglot's [_wrap(expression, Connector)]: a connective operand that
    is itself a connective is parenthesised. *)
Definition _wrap (e : Expression) : Expression :=
  if is_connector e then Paren e else e.

(** sqlglot's [_combine], behind [exp.and_] and [exp.or_] called on the
    unpacked list [es]: the first argument is split from the rest (which
    raises when there is no argument), then comes a left fold
    of the operator over [rest]; operands are wrapped only when there is
    more than one of them, so a single argument is returned as it is. *)
Definition _combine (expressions : list Expression)
    (operator : Expression → Expression → Expression) : py.result Expression :=
  match expressions with
  | [] => py.Raise (py.ValueError "not enough values to unpack (expected at least 1, got 0)")
  | this :: rest =>
      let this := match rest with [] => this | _ => _wrap this end in
      py.Ok (foldl (λ this expression, operator this (_wrap expression)) this rest)
  end.

Definition and_ (expressions : list Expression) : py.result Expression :=
  _combine expressions And.

Definition or_ (expressions : list Expression) : py.result Expression :=
  _combine expressions Or.

End exp.

(** ** The JSON filter specification *)

Module filter_json.

(** A JSON object of the filter format, read through the five keys the
    parsers look at. A key may be absent ([None]); [field], [operator]
    and [combinator] hold strings, [value] any Python value, [rules] a
    list of nodes, as the format documented in [from_json] types them. *)
Inductive node :=
| Node (field operator : option string) (value : option py.value)
       (combinator : option string) (rules : option (list node)).

Definition field (n : node) := let 'Node f _ _ _ _ := n in f.
Definition operator (n : node) := let 'Node _ o _ _ _ := n in o.
Definition value (n : node) := let 'Node _ _ v _ _ := n in v.
Definition combinator (n : node) := let 'Node _ _ _ c _ := n in c.
Definition rules (n : node) := let 'Node _ _ _ _ r := n in r.

(** [{"field": f, "operator": o, "value": v}] *)
Definition leaf (f o : string) (v : py.value) : node :=
  Node (Some f) (Some o) (Some v) None None.

(** [{"field": f, "operator": o}] *)
Definition leaf_without_value (f o : string) : node :=
  Node (Some f) (Some o) None None None.

(** [{"combinator": c, "rules": rs}] *)
Definition group (c : string) (rs : list node) : node :=
  Node None None None (Some c) (Some rs).

End filter_json.

(** ** advanced_filter_validator.py *)

Module advanced_filter_validator.

Section text.
Context `{U : py.Text}.

Record Dataset := { table_name : string; dialect : string }.

Definition table_expr (self : Dataset) : exp.Expression :=
  exp.table_ (table_name self).

Definition column_expr (self : Dataset) (column : string) : exp.Expression :=
  exp.column column (table_name self).

(** [SimpleRule] and [GroupRule] objects as their constructors leave
    them; [GroupRule_init] below is [GroupRule.__init__]. *)
Inductive FilterNode :=
| SimpleRule (field operator : string) (value : py.value)
| GroupRule (combinator : string) (children : list FilterNode).

(** [SimpleRule._to_literal] *)
Definition _to_literal (v : py.value) : exp.Expression :=
  match v with
  | py.Str s => exp.Literal_string s
  | _ => exp.Literal_number v
  end.

(** [SimpleRule.expression] *)
Definition SimpleRule_expression (dataset : Dataset)
    (field operator : string) (value : py.value) : py.result exp.Expression :=
  let col := column_expr dataset field in
  let op := py.upper operator in
  let val := value in
  if bool_decide (op ∈ ({[ "="; "==" ]} : gset string)) then
    py.Ok (exp.EQ col (_to_literal val))
  else if bool_decide (op ∈ ({[ "!="; "<>" ]} : gset string)) then
    py.Ok (exp.NEQ col (_to_literal val))
  else if bool_decide (op = ">") then py.Ok (exp.GT col (_to_literal val))
  else if bool_decide (op = "<") then py.Ok (exp.LT col (_to_literal val))
  else if bool_decide (op = ">=") then py.Ok (exp.GTE col (_to_literal val))
  else if bool_decide (op = "<=") then py.Ok (exp.LTE col (_to_literal val))
  else if bool_decide (op = "LIKE") then py.Ok (exp.Like col (_to_literal val))
  else if bool_decide (op = "IN") then
    if negb (py.is_iterable val) || py.is_str_or_bytes val then
      py.Raise (py.ValueError "IN operator requires a sequence of values")
    else
      match py.iter val with
      | Some vs => py.Ok (exp.In col (_to_literal <$> vs))
      | None => py.Raise (py.TypeError "object is not iterable")
      end
  else py.Raise (py.ValueError ("Unsupported operator: " +:+ operator)).

(** [GroupRule.__init__] *)
Definition GroupRule_init (combinator : string) (children : list FilterNode)
    : py.result FilterNode :=
  let combinator := py.upper combinator in
  if bool_decide (combinator ∉ ({[ "AND"; "OR" ]} : gset string)) then
    py.Raise (py.ValueError "combinator must be 'AND' or 'OR'")
  else py.Ok (GroupRule combinator children).

(** [FilterNode.expression], dispatched on the class of the node;
    the [GroupRule] case is [GroupRule.expression]. *)
Fixpoint expression (dataset : Dataset) (node : FilterNode)
    : py.result exp.Expression :=
  match node with
  | SimpleRule field operator value =>
      SimpleRule_expression dataset field operator value
  | GroupRule combinator children =>
      child_exprs ← py.comprehension (expression dataset) children;
      match child_exprs with
      | [] => py.Ok exp.true
      | _ =>
          if bool_decide (combinator = "AND") then exp.and_ child_exprs
          else exp.or_ child_exprs
      end
  end.

Record FilterExpression := { root : FilterNode }.

(** The local [parse] of [FilterExpression.from_json]. *)
Fixpoint parse (n : filter_json.node) : py.result FilterNode :=
  let 'filter_json.Node field operator value combinator rules := n in
  match field with
  | Some field =>
      match operator with
      | Some operator => py.Ok (SimpleRule field operator (default py.None_ value))
      | None => py.Raise (py.KeyError "operator")
      end
  | None =>
      match combinator with
      | None => py.Raise (py.ValueError "Group rule missing 'combinator'")
      | Some combinator =>
          children ←
            match rules with
            | Some children_defs => py.comprehension parse children_defs
            | None => py.comprehension parse []
            end;
          GroupRule_init combinator children
      end
  end.

Definition from_json (node : filter_json.node) : py.result FilterExpression :=
  r ← parse node; py.Ok {| root := r |}.

(** [FilterExpression.expression] *)
Definition FilterExpression_expression (self : FilterExpression)
    (dataset : Dataset) : py.result exp.Expression :=
  expression dataset (root self).

(** The validation rule classes. [RangeRule_init] below is
    [RangeRule.__init__]; the other constructors only store their
    arguments. An absent bound of a range is Python's [None]. *)
Inductive ValidationRule :=
| NotNullRule (column : string)
| UniqueValuesRule (columns : list string)
| AllowedValuesRule (column : string) (allowed : list py.value)
| RangeRule (column : string) (minimum maximum : py.value).

Definition is_None (v : py.value) : bool :=
  match v with py.None_ => true | _ => false end.

(** [RangeRule.__init__] *)
Definition RangeRule_init (column : string) (minimum maximum : py.value)
    : py.result ValidationRule :=
  if is_None minimum && is_None maximum then
    py.Raise (py.ValueError "At least one of minimum or maximum must be provided")
  else py.Ok (RangeRule column minimum maximum).

(** [UniqueValuesRule.expression] *)
Definition UniqueValuesRule_expression (dataset : Dataset)
    (columns : list string) : py.result exp.Expression :=
  let cols := column_expr dataset <$> columns in
  total_count ← exp.count exp.Star false;
  distinct_count ←
    match cols with
    | [col0] => exp.count col0 true
    | _ => let tuple_expr := exp.Tuple cols in exp.count tuple_expr true
    end;
  py.Ok (exp.EQ total_count distinct_count).

(** [RangeRule.expression]; [parts] grows by [append]. *)
Definition RangeRule_expression (dataset : Dataset) (column : string)
    (minimum maximum : py.value) : py.result exp.Expression :=
  let col := column_expr dataset column in
  let parts : list exp.Expression := [] in
  let parts :=
    if negb (is_None minimum)
    then parts ++ [exp.GTE col (exp.Literal_number minimum)] else parts in
  let parts :=
    if negb (is_None maximum)
    then parts ++ [exp.LTE col (exp.Literal_number maximum)] else parts in
  if bool_decide (1 < length parts) then exp.and_ parts
  else
    match parts with
    | part0 :: _ => py.Ok part0
    | [] => py.Raise (py.IndexError "list index out of range")
    end.

(** [ValidationRule.expression], dispatched on the class of the rule. *)
Definition rule_expression (dataset : Dataset) (rule : ValidationRule)
    : py.result exp.Expression :=
  match rule with
  | NotNullRule column =>
      let col := column_expr dataset column in
      exp.IsNot col exp.Null
  | UniqueValuesRule columns => UniqueValuesRule_expression dataset columns
  | AllowedValuesRule column allowed =>
      let col := column_expr dataset column in
      let exprs :=
        (λ v, match v with
              | py.Str s => exp.Literal_string s
              | _ => exp.Literal_number v
              end) <$> allowed in
      py.Ok (exp.In col exprs)
  | RangeRule column minimum maximum =>
      RangeRule_expression dataset column minimum maximum
  end.

Record QueryBuilder := {
  dataset : Dataset;
  filter_expr : FilterExpression;
  validation_rules : list ValidationRule
}.

(** The last two lines of [QueryBuilder.combined_condition]: how the
    compiled conditions are put together. *)
Definition combine (filter_condition : exp.Expression)
    (rule_conditions : list exp.Expression) : py.result exp.Expression :=
  let all_conditions :=
    match rule_conditions with
    | [] => [filter_condition]
    | _ => [filter_condition] ++ rule_conditions
    end in
  if bool_decide (1 < length all_conditions) then exp.and_ all_conditions
  else
    match all_conditions with
    | condition0 :: _ => py.Ok condition0
    | [] => py.Raise (py.IndexError "list index out of range")
    end.

(** [QueryBuilder.combined_condition] *)
Definition combined_condition (self : QueryBuilder) : py.result exp.Expression :=
  filter_condition ← FilterExpression_expression (filter_expr self) (dataset self);
  rule_conditions ←
    py.comprehension (rule_expression (dataset self)) (validation_rules self);
  combine filter_condition rule_conditions.

(** The local [collect] of [generate_sql]; the list [referenced] it
    appends to is threaded through. *)
Fixpoint collect (node : FilterNode) (referenced : list string) : list string :=
  match node with
  | SimpleRule field _ _ => referenced ++ [field]
  | GroupRule _ children =>
      foldl (λ referenced child, collect child referenced) referenced children
  end.

(** The loop of [generate_sql] over the validation rules. *)
Definition collect_rule (referenced : list string) (rule : ValidationRule)
    : list string :=
  match rule with
  | NotNullRule column | AllowedValuesRule column _ | RangeRule column _ _ =>
      referenced ++ [column]
  | UniqueValuesRule columns => referenced ++ columns
  end.

(** [[c for c in referenced if not (c in seen or seen.add(c))]], with
    the set [seen] as it stands when the comprehension reaches [c]. *)
Fixpoint dedup (seen : gset string) (referenced : list string) : list string :=
  match referenced with
  | [] => []
  | c :: referenced' =>
      if bool_decide (c ∈ seen) then dedup seen referenced'
      else c :: dedup ({[ c ]} ∪ seen) referenced'
  end.

(** The names [generate_sql] gathers before the deduplication. *)
Definition referenced_columns (self : QueryBuilder) : list string :=
  let referenced := [] in
  let referenced := collect (root (filter_expr self)) referenced in
  foldl collect_rule referenced (validation_rules self).

(** [unique_cols] of [generate_sql]. *)
Definition unique_cols (self : QueryBuilder) : list string :=
  dedup ∅ (referenced_columns self).

(** [QueryBuilder.generate_sql] up to the query it hands to the
    renderer; the final [query.sql(dialect=...)] is the renderer's. *)
Definition generate_sql (self : QueryBuilder) (select_all : bool)
    : py.result exp.Expression :=
  let table_expr := table_expr (dataset self) in
  where_expr ← combined_condition self;
  if select_all then py.Ok (exp.Select [exp.Star] table_expr where_expr)
  else
    let cols := column_expr (dataset self) <$> unique_cols self in
    py.Ok (exp.Select cols table_expr where_expr).

End text.

End advanced_filter_validator.

(** ** class_based_filter.py *)

Module class_based_filter.

(** The module reuses [Dataset] of [advanced_filter_validator]. *)
Import advanced_filter_validator (Dataset, column_expr).

Section text.
Context `{U : py.Text}.

(** One constructor per rule class. [InFilter] holds [tuple(values)];
    [InFilter_init] and [LogicalGroup_init] below are the two
    constructors that can raise. *)
Inductive BaseFilterRule :=
| EqualsFilter (field : string) (value : py.value)
| NotEqualsFilter (field : string) (value : py.value)
| GreaterThanFilter (field : string) (value : py.value)
| LessThanFilter (field : string) (value : py.value)
| GreaterOrEqualFilter (field : string) (value : py.value)
| LessOrEqualFilter (field : string) (value : py.value)
| LikeFilter (field : string) (value : py.value)
| InFilter (field : string) (values : list py.value)
| LogicalGroup (combinator : string) (children : list BaseFilterRule).

(** [SingleValueMixin._literal] *)
Definition _literal (v : py.value) : exp.Expression :=
  match v with
  | py.Str s => exp.Literal_string s
  | _ => exp.Literal_number v
  end.

(** [ListValueMixin._literal_list] *)
Definition _literal_list (values : list py.value) : list exp.Expression :=
  (λ v, match v with
        | py.Str s => exp.Literal_string s
        | _ => exp.Literal_number v
        end) <$> values.

(** [ListValueMixin.__init__]: [tuple(values)] needs an iterable. *)
Definition InFilter_init (field : string) (values : py.value)
    : py.result BaseFilterRule :=
  match py.iter values with
  | Some vs => py.Ok (InFilter field vs)
  | None => py.Raise (py.TypeError "object is not iterable")
  end.

(** [LogicalGroup.__init__] *)
Definition LogicalGroup_init (combinator : string)
    (children : list BaseFilterRule) : py.result BaseFilterRule :=
  let combinator := py.upper combinator in
  if bool_decide (combinator ∉ ({[ "AND"; "OR" ]} : gset string)) then
    py.Raise (py.ValueError "combinator must be 'AND' or 'OR'")
  else py.Ok (LogicalGroup combinator children).

(** [expression] of each rule class. *)
Fixpoint expression (dataset : Dataset) (rule : BaseFilterRule)
    : py.result exp.Expression :=
  match rule with
  | EqualsFilter field value =>
      py.Ok (exp.EQ (column_expr dataset field) (_literal value))
  | NotEqualsFilter field value =>
      py.Ok (exp.NEQ (column_expr dataset field) (_literal value))
  | GreaterThanFilter field value =>
      py.Ok (exp.GT (column_expr dataset field) (_literal value))
  | LessThanFilter field value =>
      py.Ok (exp.LT (column_expr dataset field) (_literal value))
  | GreaterOrEqualFilter field value =>
      py.Ok (exp.GTE (column_expr dataset field) (_literal value))
  | LessOrEqualFilter field value =>
      py.Ok (exp.LTE (column_expr dataset field) (_literal value))
  | LikeFilter field value =>
      py.Ok (exp.Like (column_expr dataset field) (_literal value))
  | InFilter field values =>
      py.Ok (exp.In (column_expr dataset field) (_literal_list values))
  | LogicalGroup combinator children =>
      child_exprs ← py.comprehension (expression dataset) children;
      match child_exprs with
      | [] => py.Ok exp.true
      | _ =>
          if bool_decide (combinator = "AND") then exp.and_ child_exprs
          else exp.or_ child_exprs
      end
  end.

(** The classes [OPERATOR_MAP] refers to. *)
Inductive rule_cls :=
| EqualsFilter_cls | NotEqualsFilter_cls | GreaterThanFilter_cls
| LessThanFilter_cls | GreaterOrEqualFilter_cls | LessOrEqualFilter_cls
| LikeFilter_cls | InFilter_cls.

(** [FilterParser.OPERATOR_MAP] *)
Definition OPERATOR_MAP : gmap string rule_cls :=
  list_to_map [
    ("=", EqualsFilter_cls);
    ("==", EqualsFilter_cls);
    ("!=", NotEqualsFilter_cls);
    ("<>", NotEqualsFilter_cls);
    (">", GreaterThanFilter_cls);
    ("<", LessThanFilter_cls);
    (">=", GreaterOrEqualFilter_cls);
    ("<=", LessOrEqualFilter_cls);
    ("LIKE", LikeFilter_cls);
    ("IN", InFilter_cls)
  ].

(** [rule_cls(field, value)] *)
Definition instantiate (cls : rule_cls) (field : string) (value : py.value)
    : py.result BaseFilterRule :=
  match cls with
  | EqualsFilter_cls => py.Ok (EqualsFilter field value)
  | NotEqualsFilter_cls => py.Ok (NotEqualsFilter field value)
  | GreaterThanFilter_cls => py.Ok (GreaterThanFilter field value)
  | LessThanFilter_cls => py.Ok (LessThanFilter field value)
  | GreaterOrEqualFilter_cls => py.Ok (GreaterOrEqualFilter field value)
  | LessOrEqualFilter_cls => py.Ok (LessOrEqualFilter field value)
  | LikeFilter_cls => py.Ok (LikeFilter field value)
  | InFilter_cls => InFilter_init field value
  end.

(** [FilterParser.parse]; [not combinator] holds for an absent key and
    for the empty string. *)
Fixpoint parse (node : filter_json.node) : py.result BaseFilterRule :=
  let 'filter_json.Node field operator value combinator rules := node in
  match field with
  | Some field =>
      match operator with
      | None => py.Raise (py.KeyError "operator")
      | Some operator =>
          let op := py.upper operator in
          let value := default py.None_ value in
          match OPERATOR_MAP !! op with
          | None => py.Raise (py.ValueError ("Unsupported operator: " +:+ op))
          | Some rule_cls =>
              if bool_decide (op = "IN") && negb (py.is_iterable value) then
                py.Raise (py.ValueError "IN operator requires a list of values")
              else instantiate rule_cls field value
          end
      end
  | None =>
      match combinator with
      | None | Some "" => py.Raise (py.ValueError "Group node missing 'combinator'")
      | Some combinator =>
          children ←
            match rules with
            | Some children_defs => py.comprehension parse children_defs
            | None => py.comprehension parse []
            end;
          LogicalGroup_init combinator children
      end
  end.

End text.

End class_based_filter.

(** ** dataset_validator.py *)

Module dataset_validator.

Record Dataset := { table_name : string; dialect : string }.

Definition table_expr (self : Dataset) : exp.Expression :=
  exp.table_ (table_name self).

Definition column_expr (self : Dataset) (column : string) : exp.Expression :=
  exp.column column (table_name self).

Inductive ValidationRule :=
| NotNullRule (column : string)
| UniqueValuesRule (columns : list string)
| AllowedValuesRule (column : string) (allowed_values : list py.value)
| RangeRule (column : string) (minimum maximum : py.value).

Definition is_None (v : py.value) : bool :=
  match v with py.None_ => true | _ => false end.

(** [RangeRule.__init__] *)
Definition RangeRule_init (column : string) (minimum maximum : py.value)
    : py.result ValidationRule :=
  if is_None minimum && is_None maximum then
    py.Raise (py.ValueError "At least one of minimum or maximum must be provided")
  else py.Ok (RangeRule column minimum maximum).

(** [UniqueValuesRule.expression] *)
Definition UniqueValuesRule_expression (dataset : Dataset)
    (columns : list string) : py.result exp.Expression :=
  let table_expr := table_expr dataset in
  let cols := column_expr dataset <$> columns in
  total_count ← exp.count exp.Star false;
  distinct_count ←
    match cols with
    | [col0] => exp.count col0 true
    | _ => let distinct_tuple := exp.Tuple cols in exp.count distinct_tuple true
    end;
  py.Ok (exp.EQ total_count distinct_count).

(** [RangeRule.expression] *)
Definition RangeRule_expression (dataset : Dataset) (column : string)
    (minimum maximum : py.value) : py.result exp.Expression :=
  let col := column_expr dataset column in
  let exprs : list exp.Expression := [] in
  let exprs :=
    if negb (is_None minimum)
    then exprs ++ [exp.GTE col (exp.Literal_number minimum)] else exprs in
  let exprs :=
    if negb (is_None maximum)
    then exprs ++ [exp.LTE col (exp.Literal_number maximum)] else exprs in
  if bool_decide (1 < length exprs) then exp.and_ exprs
  else
    match exprs with
    | expr0 :: _ => py.Ok expr0
    | [] => py.Raise (py.IndexError "list index out of range")
    end.

(** [ValidationRule.expression], dispatched on the class of the rule. *)
Definition rule_expression (dataset : Dataset) (rule : ValidationRule)
    : py.result exp.Expression :=
  match rule with
  | NotNullRule column =>
      let col := column_expr dataset column in
      exp.IsNot col exp.Null
  | UniqueValuesRule columns => UniqueValuesRule_expression dataset columns
  | AllowedValuesRule column allowed_values =>
      let values :=
        (λ v, match v with
              | py.Str s => exp.Literal_string s
              | _ => exp.Literal_number v
              end) <$> allowed_values in
      py.Ok (exp.In (column_expr dataset column) values)
  | RangeRule column minimum maximum =>
      RangeRule_expression dataset column minimum maximum
  end.

End dataset_validator.

(** ** dataset_validator.py: the Validator *)

Module validator.

Import dataset_validator.

Record Validator := { dataset : Dataset; rules : list ValidationRule }.

(** [Validator.combined_expression] *)
Definition combined_expression (self : Validator) : py.result exp.Expression :=
  exprs ← py.comprehension (rule_expression (dataset self)) (rules self);
  match exprs with
  | [] => py.Ok exp.true
  | _ => exp.and_ exprs
  end.

(** What [generate_sql] can end in: an exception of the rule compiler, or
    the [NameError] of a name that no scope binds. *)
Inductive error :=
| Builtin (e : py.exn)
| NameError (name : string).

(** The filters of the set comprehension of [generate_sql]: the rule is a
    [NotNullRule], an [AllowedValuesRule] or a [RangeRule], and its
    [column] is truthy, that is, not the empty string. *)
Definition projected (rule : ValidationRule) : bool :=
  match rule with
  | NotNullRule column | AllowedValuesRule column _ | RangeRule column _ _ =>
      negb (bool_decide (column = ""))
  | UniqueValuesRule _ => false
  end.

(** The set comprehension of [generate_sql]. Its element expression is
    [dataset.column_expr(col)], and [dataset] is neither a local of the
    method (the dataset is [self.dataset]) nor a global of the module: the
    first rule that passes the filters raises [NameError]. *)
Fixpoint projection (rules : list ValidationRule) : error + list exp.Expression :=
  match rules with
  | [] => inr []
  | rule :: rules' =>
      if projected rule then inl (NameError "dataset") else projection rules'
  end.

(** [Validator.generate_sql] up to the query it hands to the renderer. *)
Definition generate_sql (self : Validator) (select_all : bool)
    : error + exp.Expression :=
  let table_expr := table_expr (dataset self) in
  match combined_expression self with
  | py.Raise e => inl (Builtin e)
  | py.Ok condition =>
      if select_all then inr (exp.Select [exp.Star] table_expr condition)
      else
        match projection (rules self) with
        | inl e => inl e
        | inr columns => inr (exp.Select columns table_expr condition)
        end
  end.

End validator.

(** * Vocabulary of the statements *)

Module afv := advanced_filter_validator.
Module cbf := class_based_filter.
Module dv := dataset_validator.

(** The predicate a group or a combination is folded into: nothing to fold
    gives "always true", one predicate is returned as it is, several are
    chained left to right under [operator]. *)
Definition fold_under (operator : exp.Expression → exp.Expression → exp.Expression)
    (ps : list exp.Expression) : exp.Expression :=
  match ps with
  | [] => exp.true
  | [p] => p
  | p :: rest => foldl (λ acc e, operator acc (exp._wrap e)) (exp._wrap p) rest
  end.

(** The predicate kinds the operator strings stand for: seven binary
    comparisons of a column with one literal, and set membership. *)
Inductive comparison_kind :=
| kind_EQ | kind_NEQ | kind_GT | kind_LT | kind_GTE | kind_LTE | kind_LIKE.

Inductive predicate_kind :=
| Comparison (k : comparison_kind)
| Membership.

(** The documented reading of a case-normalised operator string; [None]
    for a string outside the ten recognised spellings. *)
Definition documented_kind (op : string) : option predicate_kind :=
  if decide (op = "=" ∨ op = "==") then Some (Comparison kind_EQ)
  else if decide (op = "!=" ∨ op = "<>") then Some (Comparison kind_NEQ)
  else if decide (op = ">") then Some (Comparison kind_GT)
  else if decide (op = "<") then Some (Comparison kind_LT)
  else if decide (op = ">=") then Some (Comparison kind_GTE)
  else if decide (op = "<=") then Some (Comparison kind_LTE)
  else if decide (op = "LIKE") then Some (Comparison kind_LIKE)
  else if decide (op = "IN") then Some Membership
  else None.

(** The binary predicate of a comparison kind over a column and a literal. *)
Definition comparison (k : comparison_kind) (col lit : exp.Expression)
    : exp.Expression :=
  match k with
  | kind_EQ => exp.EQ col lit
  | kind_NEQ => exp.NEQ col lit
  | kind_GT => exp.GT col lit
  | kind_LT => exp.LT col lit
  | kind_GTE => exp.GTE col lit
  | kind_LTE => exp.LTE col lit
  | kind_LIKE => exp.Like col lit
  end.

(** The literal of a value: a string literal for a string, a numeric
    literal for anything else. *)
Definition literal_of (v : py.value) : exp.Expression :=
  match v with
  | py.Str s => exp.Literal_string s
  | _ => exp.Literal_number v
  end.

(** A dataset and a query for the worked instances. *)
Definition sample_dataset : afv.Dataset :=
  {| afv.table_name := "t"; afv.dialect := "duckdb" |}.

Definition sample_dataset' : dv.Dataset :=
  {| dv.table_name := "t"; dv.dialect := "duckdb" |}.

(** The rule class [FilterParser] keeps for a kind. *)
Definition cls_of_kind (k : predicate_kind) : cbf.rule_cls :=
  match k with
  | Comparison kind_EQ => cbf.EqualsFilter_cls
  | Comparison kind_NEQ => cbf.NotEqualsFilter_cls
  | Comparison kind_GT => cbf.GreaterThanFilter_cls
  | Comparison kind_LT => cbf.LessThanFilter_cls
  | Comparison kind_GTE => cbf.GreaterOrEqualFilter_cls
  | Comparison kind_LTE => cbf.LessOrEqualFilter_cls
  | Comparison kind_LIKE => cbf.LikeFilter_cls
  | Membership => cbf.InFilter_cls
  end.

(** The field names of the leaves of a filter tree, depth first, a node
    before what follows it, children left to right. *)
Fixpoint fields_preorder (node : afv.FilterNode) : list string :=
  match node with
  | afv.SimpleRule field _ _ => [field]
  | afv.GroupRule _ children => concat (fields_preorder <$> children)
  end.

(** The column or columns a validation rule names. *)
Definition rule_columns (rule : afv.ValidationRule) : list string :=
  match rule with
  | afv.NotNullRule column => [column]
  | afv.UniqueValuesRule columns => columns
  | afv.AllowedValuesRule column _ => [column]
  | afv.RangeRule column _ _ => [column]
  end.

(** Every name the filter tree and the validation rules refer to, in
    order of reference. *)
Definition referenced_names (root : afv.FilterNode)
    (rules : list afv.ValidationRule) : list string :=
  fields_preorder root ++ concat (rule_columns <$> rules).

(** A query builder whose rules compile, and the query of the spec's
    sixth scenario, whose rule is a not-null rule. *)
Definition sample_builder : afv.QueryBuilder :=
  {| afv.dataset := sample_dataset;
     afv.filter_expr := {| afv.root := afv.SimpleRule "field1" "=" (py.Str "v1") |};
     afv.validation_rules :=
       [afv.AllowedValuesRule "field1" [py.Str "v1"; py.Str "v2"];
        afv.RangeRule "score" (py.Int 0) py.None_] |}.

Definition scenario_builder : afv.QueryBuilder :=
  {| afv.dataset := sample_dataset;
     afv.filter_expr := {| afv.root := afv.SimpleRule "field1" "=" (py.Str "v1") |};
     afv.validation_rules := [afv.NotNullRule "field1"] |}.

(** The leaves of a filter tree in pre-order, each with its field, its
    operator and its value. *)
Fixpoint leaves (node : afv.FilterNode) : list (string * string * py.value) :=
  match node with
  | afv.SimpleRule field operator value => [(field, operator, value)]
  | afv.GroupRule _ children => concat (leaves <$> children)
  end.

(** The combinators of the groups of a filter tree, in pre-order. *)
Fixpoint group_combinators (node : afv.FilterNode) : list string :=
  match node with
  | afv.SimpleRule _ _ _ => []
  | afv.GroupRule combinator children =>
      combinator :: concat (group_combinators <$> children)
  end.

Fixpoint group_combinators' (rule : cbf.BaseFilterRule) : list string :=
  match rule with
  | cbf.LogicalGroup combinator children =>
      combinator :: concat (group_combinators' <$> children)
  | _ => []
  end.

(** The [field] entries of a JSON filter in document order: a node that
    has the key is a leaf, whatever else it holds. *)
Fixpoint json_fields (n : filter_json.node) : list string :=
  let 'filter_json.Node field _ _ _ rules := n in
  match field with
  | Some field => [field]
  | None =>
      match rules with
      | Some rules => concat (json_fields <$> rules)
      | None => []
      end
  end.

(** A rule of [dataset_validator] as the rule of the same class and
    arguments of [advanced_filter_validator]. *)
Definition same_rule (rule : dv.ValidationRule) : afv.ValidationRule :=
  match rule with
  | dv.NotNullRule column => afv.NotNullRule column
  | dv.UniqueValuesRule columns => afv.UniqueValuesRule columns
  | dv.AllowedValuesRule column allowed_values =>
      afv.AllowedValuesRule column allowed_values
  | dv.RangeRule column minimum maximum => afv.RangeRule column minimum maximum
  end.

(** The exception a validation rule ends in when it is compiled, if any:
    a not-null rule and a uniqueness rule name [exp.IsNot] and
    [exp.count], which the library does not define; a range rule that
    holds no bound (no constructor call builds one) indexes an empty
    list. *)
Definition rule_failure (rule : afv.ValidationRule) : option py.exn :=
  match rule with
  | afv.NotNullRule _ =>
      Some (py.AttributeError "module 'sqlglot.expressions' has no attribute 'IsNot'")
  | afv.UniqueValuesRule _ =>
      Some (py.AttributeError "module 'sqlglot.expressions' has no attribute 'count'")
  | afv.AllowedValuesRule _ _ => None
  | afv.RangeRule _ minimum maximum =>
      if afv.is_None minimum && afv.is_None maximum
      then Some (py.IndexError "list index out of range")
      else None
  end.

(** The JSON filters [from_json] accepts: a node with a [field] key needs
    an [operator] key, any other node needs a [combinator] that reads AND
    or OR once upper-cased, and accepted children under [rules]. *)
Inductive accepted `{U : py.Text} : filter_json.node → Prop :=
| accepted_leaf field operator value combinator rules :
    accepted (filter_json.Node (Some field) (Some operator) value combinator rules)
| accepted_group operator value combinator rules :
    py.upper combinator = "AND" ∨ py.upper combinator = "OR" →
    Forall accepted (default [] rules) →
    accepted (filter_json.Node None operator value (Some combinator) rules).

(** A validator for the worked instances. *)
Definition sample_validator : validator.Validator :=
  {| validator.dataset := sample_dataset';
     validator.rules :=
       [dv.AllowedValuesRule "status" [py.Str "a"; py.Str "b"];
        dv.RangeRule "score" (py.Int 0) py.None_] |}.

(** * Properties *)

Section properties.
Context `{U : py.Text}.

(** ** The result monad and comprehensions *)

Section comprehension.
Context {A B : Type} (f : A → py.result B).

Lemma comprehension_nil : py.comprehension f [] = py.Ok [].
Proof. reflexivity. Qed.

Lemma comprehension_cons x l :
  py.comprehension f (x :: l) =
    (y ← f x; ys ← py.comprehension f l; py.Ok (y :: ys)).
Proof. reflexivity. Qed.

(** When every element evaluates, the comprehension is the list of the
    results, in order. *)
Lemma comprehension_Forall2 l ys :
  Forall2 (λ x y, f x = py.Ok y) l ys → py.comprehension f l = py.Ok ys.
Proof.
  induction 1 as [|x y l ys Hxy _ IH]; [done|].
  rewrite comprehension_cons, Hxy. cbn. by rewrite IH.
Qed.

Lemma comprehension_Ok_inv l ys :
  py.comprehension f l = py.Ok ys → Forall2 (λ x y, f x = py.Ok y) l ys.
Proof.
  revert ys. induction l as [|x l IH]; intros ys.
  - intros [= <-]. constructor.
  - rewrite comprehension_cons. destruct (f x) as [y|e] eqn:Hx; [|done]. cbn.
    destruct (py.comprehension f l) as [ys'|e]; [|done]. cbn.
    intros [= <-]. constructor; [done|]. by apply IH.
Qed.
End comprehension.

(** ** Connectives *)

Lemma _combine_fold_under operator p ps :
  exp._combine (p :: ps) operator = py.Ok (fold_under operator (p :: ps)).
Proof. by destruct ps. Qed.

Lemma afv_group_expression ds combinator children ps :
  Forall2 (λ c p, afv.expression ds c = py.Ok p) children ps →
  afv.expression ds (afv.GroupRule combinator children) =
    py.Ok (fold_under (if bool_decide (combinator = "AND") then exp.And else exp.Or) ps).
Proof.
  intros H%comprehension_Forall2. cbn [afv.expression]. rewrite H. cbn.
  destruct ps as [|p ps]; [done|].
  unfold exp.and_, exp.or_. case_bool_decide; apply _combine_fold_under.
Qed.

Lemma cbf_group_expression ds combinator children ps :
  Forall2 (λ c p, cbf.expression ds c = py.Ok p) children ps →
  cbf.expression ds (cbf.LogicalGroup combinator children) =
    py.Ok (fold_under (if bool_decide (combinator = "AND") then exp.And else exp.Or) ps).
Proof.
  intros H%comprehension_Forall2. cbn [cbf.expression]. rewrite H. cbn.
  destruct ps as [|p ps]; [done|].
  unfold exp.and_, exp.or_. case_bool_decide; apply _combine_fold_under.
Qed.

(** [GroupRule.__init__] and [LogicalGroup.__init__] keep the combinator
    upper-cased, and accept AND and OR only. *)
Lemma group_init_combinator combinator children rules :
  afv.GroupRule_init combinator children =
    (if bool_decide (py.upper combinator = "AND" ∨ py.upper combinator = "OR")
     then py.Ok (afv.GroupRule (py.upper combinator) children)
     else py.Raise (py.ValueError "combinator must be 'AND' or 'OR'")) ∧
  cbf.LogicalGroup_init combinator rules =
    (if bool_decide (py.upper combinator = "AND" ∨ py.upper combinator = "OR")
     then py.Ok (cbf.LogicalGroup (py.upper combinator) rules)
     else py.Raise (py.ValueError "combinator must be 'AND' or 'OR'")).
Proof.
  unfold afv.GroupRule_init, cbf.LogicalGroup_init.
  generalize (py.upper combinator) as c. intros c.
  split; repeat case_bool_decide; try done; set_solver.
Qed.


(** C1. A group whose children compile to [ps] (in declaration order)
    compiles, for AND and for OR and in both filter modules, to "always
    true" when there is no child, to the child's own predicate when there
    is one, and to the left-to-right chain of the children's predicates
    under the declared connective when there are more. *)
Theorem group_compiles_to_fold
    (ds : afv.Dataset)
    (children : list afv.FilterNode) (rules : list cbf.BaseFilterRule)
    (ps qs : list exp.Expression) :
  Forall2 (λ c p, afv.expression ds c = py.Ok p) children ps →
  Forall2 (λ c q, cbf.expression ds c = py.Ok q) rules qs →
  afv.expression ds (afv.GroupRule "AND" children) = py.Ok (fold_under exp.And ps) ∧
  afv.expression ds (afv.GroupRule "OR" children) = py.Ok (fold_under exp.Or ps) ∧
  cbf.expression ds (cbf.LogicalGroup "AND" rules) = py.Ok (fold_under exp.And qs) ∧
  cbf.expression ds (cbf.LogicalGroup "OR" rules) = py.Ok (fold_under exp.Or qs) ∧
  fold_under exp.And [] = exp.true ∧ fold_under exp.Or [] = exp.true ∧
  (∀ p, fold_under exp.And [p] = p ∧ fold_under exp.Or [p] = p).
Proof.
  intros Hps Hqs. repeat split.
  - by rewrite (afv_group_expression _ _ _ _ Hps).
  - by rewrite (afv_group_expression _ _ _ _ Hps).
  - by rewrite (cbf_group_expression _ _ _ _ Hqs).
  - by rewrite (cbf_group_expression _ _ _ _ Hqs).
Qed.



(** ** Operators *)

(** Case analysis on an operator string along [documented_kind]: one goal
    per recognised spelling, with the string substituted, and a last goal
    in which it differs from all ten. *)
Ltac operator_cases op :=
  destruct (decide (op = "=" ∨ op = "==")) as [[->| ->]|?];
  [| |destruct (decide (op = "!=" ∨ op = "<>")) as [[->| ->]|?];
  [| |destruct (decide (op = ">")) as [->|?];
  [|destruct (decide (op = "<")) as [->|?];
  [|destruct (decide (op = ">=")) as [->|?];
  [|destruct (decide (op = "<=")) as [->|?];
  [|destruct (decide (op = "LIKE")) as [->|?];
  [|destruct (decide (op = "IN")) as [->|?]]]]]]]].

(** What [SimpleRule.expression] does once the operator is upper-cased,
    read off the documented kind. *)
Lemma SimpleRule_expression_kind ds field operator value :
  afv.SimpleRule_expression ds field operator value =
    match documented_kind (py.upper operator) with
    | Some (Comparison k) =>
        py.Ok (comparison k (afv.column_expr ds field) (afv._to_literal value))
    | Some Membership =>
        if negb (py.is_iterable value) || py.is_str_or_bytes value
        then py.Raise (py.ValueError "IN operator requires a sequence of values")
        else py.Ok (exp.In (afv.column_expr ds field)
                      (afv._to_literal <$> default [] (py.iter value)))
    | None => py.Raise (py.ValueError ("Unsupported operator: " +:+ operator))
    end.
Proof.
  unfold afv.SimpleRule_expression, documented_kind.
  generalize (py.upper operator) as op. intros op.
  operator_cases op; try done.
  - cbn. by destruct value.
  - rewrite !bool_decide_eq_false_2 by set_solver. done.
Qed.

(** [OPERATOR_MAP] holds the documented kinds and nothing else. *)
Lemma OPERATOR_MAP_kind op :
  cbf.OPERATOR_MAP !! op = cls_of_kind <$> documented_kind op.
Proof.
  unfold documented_kind.
  operator_cases op; try done.
  unfold cbf.OPERATOR_MAP. cbn [list_to_map foldr uncurry fst snd].
  rewrite !lookup_insert_ne by naive_solver. apply lookup_empty.
Qed.

Lemma _to_literal_literal_of v : afv._to_literal v = literal_of v.
Proof. by destruct v. Qed.

Lemma _literal_literal_of v : cbf._literal v = literal_of v.
Proof. by destruct v. Qed.

Lemma _literal_list_literal_of vs : cbf._literal_list vs = literal_of <$> vs.
Proof.
  unfold cbf._literal_list. apply list_fmap_ext. intros _ v _. by destruct v.
Qed.

(** [FilterParser.parse] on a leaf, read off the documented kind. *)
Lemma cbf_parse_leaf field operator value combinator rules :
  cbf.parse (filter_json.Node (Some field) (Some operator) value combinator rules) =
    match documented_kind (py.upper operator) with
    | Some (Comparison k) =>
        cbf.instantiate (cls_of_kind (Comparison k)) field (default py.None_ value)
    | Some Membership =>
        if negb (py.is_iterable (default py.None_ value))
        then py.Raise (py.ValueError "IN operator requires a list of values")
        else cbf.InFilter_init field (default py.None_ value)
    | None =>
        py.Raise (py.ValueError ("Unsupported operator: " +:+ py.upper operator))
    end.
Proof.
  cbn [cbf.parse]. rewrite OPERATOR_MAP_kind.
  unfold documented_kind. generalize (py.upper operator) as op. intros op.
  operator_cases op; done.
Qed.

Lemma is_iterable_iter v : py.is_iterable v = true → is_Some (py.iter v).
Proof. destruct v; naive_solver. Qed.

(** A leaf of [advanced_filter_validator], compiled. *)
Lemma afv_leaf_kind ds field operator value :
  afv.expression ds (afv.SimpleRule field operator value) =
    match documented_kind (py.upper operator) with
    | Some (Comparison k) =>
        py.Ok (comparison k (afv.column_expr ds field) (literal_of value))
    | Some Membership =>
        if negb (py.is_iterable value) || py.is_str_or_bytes value
        then py.Raise (py.ValueError "IN operator requires a sequence of values")
        else py.Ok (exp.In (afv.column_expr ds field)
                      (literal_of <$> default [] (py.iter value)))
    | None => py.Raise (py.ValueError ("Unsupported operator: " +:+ operator))
    end.
Proof.
  cbn [afv.expression]. rewrite SimpleRule_expression_kind.
  by destruct (documented_kind _) as [[k|]|].
Qed.

(** A JSON leaf of [class_based_filter], parsed and compiled; an absent
    value reads as [None]. *)
Lemma cbf_leaf_kind ds field operator value combinator rules :
  (cbf.parse (filter_json.Node (Some field) (Some operator) value combinator rules)
     ≫= cbf.expression ds) =
    match documented_kind (py.upper operator) with
    | Some (Comparison k) =>
        py.Ok (comparison k (afv.column_expr ds field)
                 (literal_of (default py.None_ value)))
    | Some Membership =>
        if negb (py.is_iterable (default py.None_ value))
        then py.Raise (py.ValueError "IN operator requires a list of values")
        else py.Ok (exp.In (afv.column_expr ds field)
                      (literal_of <$> default [] (py.iter (default py.None_ value))))
    | None =>
        py.Raise (py.ValueError ("Unsupported operator: " +:+ py.upper operator))
    end.
Proof.
  rewrite cbf_parse_leaf. generalize (default py.None_ value) as v. intros v.
  destruct (documented_kind _) as [[k|]|]; [| |done].
  - destruct k; cbn; by rewrite _literal_literal_of.
  - destruct (py.is_iterable v) eqn:Hit; [|reflexivity]. cbn [negb].
    destruct (is_iterable_iter _ Hit) as [vs Hvs].
    unfold cbf.InFilter_init. rewrite Hvs. cbn.
    by rewrite _literal_list_literal_of.
Qed.

(** C2. A leaf's operator is upper-cased, and the ten recognised spellings
    give their documented predicate over the qualified column and the
    coerced value: a binary comparison for [=], [==], [!=], [<>], [>], [<],
    [>=], [<=], [LIKE], set membership over the coerced elements for [IN]
    (whose value has to pass the module's check on sequences). Any other
    operator ends in the "Unsupported operator" [ValueError] that names
    it, at compile time in [advanced_filter_validator] and at parse time
    in [class_based_filter]. *)
Theorem operator_coverage
    (ds : afv.Dataset) (field operator : string) (value : py.value)
    (combinator : option string) (rules : option (list filter_json.node)) :
  afv.expression ds (afv.SimpleRule field operator value) =
    match documented_kind (py.upper operator) with
    | Some (Comparison k) =>
        py.Ok (comparison k (afv.column_expr ds field) (literal_of value))
    | Some Membership =>
        if negb (py.is_iterable value) || py.is_str_or_bytes value
        then py.Raise (py.ValueError "IN operator requires a sequence of values")
        else py.Ok (exp.In (afv.column_expr ds field)
                      (literal_of <$> default [] (py.iter value)))
    | None => py.Raise (py.ValueError ("Unsupported operator: " +:+ operator))
    end
  ∧
  (cbf.parse (filter_json.Node (Some field) (Some operator) (Some value)
                combinator rules) ≫= cbf.expression ds) =
    match documented_kind (py.upper operator) with
    | Some (Comparison k) =>
        py.Ok (comparison k (afv.column_expr ds field) (literal_of value))
    | Some Membership =>
        if negb (py.is_iterable value)
        then py.Raise (py.ValueError "IN operator requires a list of values")
        else py.Ok (exp.In (afv.column_expr ds field)
                      (literal_of <$> default [] (py.iter value)))
    | None =>
        py.Raise (py.ValueError ("Unsupported operator: " +:+ py.upper operator))
    end.
Proof.
  split; [apply afv_leaf_kind|].
  apply (cbf_leaf_kind ds field operator (Some value)).
Qed.

(** ** The predicate combiner *)

Lemma combine_fold_under f vs :
  afv.combine f vs = py.Ok (fold_under exp.And (f :: vs)).
Proof. by destruct vs. Qed.



(** X16. When the filter compiles to [f] and the validation rules
    compile to [vs], the combined condition is [f] itself when there is no
    rule, and otherwise the AND chain that starts with [f] and takes the
    rules' predicates in their given order. *)
Theorem combined_condition_order
    (self : afv.QueryBuilder) (f : exp.Expression) (vs : list exp.Expression) :
  afv.FilterExpression_expression (afv.filter_expr self) (afv.dataset self) = py.Ok f →
  Forall2 (λ rule v, afv.rule_expression (afv.dataset self) rule = py.Ok v)
    (afv.validation_rules self) vs →
  afv.combined_condition self =
    py.Ok (match vs with
           | [] => f
           | _ => foldl (λ acc v, exp.And acc (exp._wrap v)) (exp._wrap f) vs
           end).
Proof.
  intros Hf Hvs%comprehension_Forall2. unfold afv.combined_condition.
  rewrite Hf. cbn. rewrite Hvs. cbn. rewrite combine_fold_under. by destruct vs.
Qed.

(** C3, on the code. With a not-null rule first among the validation
    rules the combined condition is not built: compiling the rule
    evaluates [exp.IsNot], a name the library does not define, and the
    [AttributeError] escapes from [combined_condition], where the spec
    has the filter's predicate ANDed with [column IS NOT NULL]. *)
Theorem combined_condition_not_null_raises
    (self : afv.QueryBuilder) (f : exp.Expression)
    (column : string) (rest : list afv.ValidationRule) :
  afv.FilterExpression_expression (afv.filter_expr self) (afv.dataset self) = py.Ok f →
  afv.validation_rules self = afv.NotNullRule column :: rest →
  afv.combined_condition self =
    py.Raise (py.AttributeError "module 'sqlglot.expressions' has no attribute 'IsNot'").
Proof.
  intros Hf Hrules. unfold afv.combined_condition. by rewrite Hf, Hrules.
Qed.

(** ** Column collection *)

(** Induction on filter trees, with the hypothesis on every child. *)
Lemma FilterNode_children_ind (P : afv.FilterNode → Prop) :
  (∀ field operator value, P (afv.SimpleRule field operator value)) →
  (∀ combinator children, Forall P children → P (afv.GroupRule combinator children)) →
  ∀ node, P node.
Proof.
  intros Hleaf Hgroup. fix IH 1. intros [field operator value|combinator children].
  - apply Hleaf.
  - apply Hgroup. induction children as [|child children IHc]; constructor.
    + apply IH.
    + apply IHc.
Qed.

(** The threaded list grows by the leaves of the node, in pre-order. *)
Lemma collect_fields_preorder node referenced :
  afv.collect node referenced = referenced ++ fields_preorder node.
Proof.
  revert referenced.
  induction node as [field operator value|combinator children IH]
    using FilterNode_children_ind; intros referenced; [done|].
  cbn [afv.collect fields_preorder].
  revert referenced. induction IH as [|child children Hchild _ IHc]; intros referenced.
  - cbn. by rewrite app_nil_r.
  - cbn [foldl fmap list_fmap concat]. rewrite Hchild, IHc. by rewrite app_assoc.
Qed.

Lemma collect_rule_columns rules referenced :
  foldl afv.collect_rule referenced rules =
    referenced ++ concat (rule_columns <$> rules).
Proof.
  revert referenced. induction rules as [|rule rules IH]; intros referenced.
  - cbn. by rewrite app_nil_r.
  - cbn [foldl fmap list_fmap concat]. rewrite IH, app_assoc.
    by destruct rule.
Qed.

Lemma referenced_columns_names self :
  afv.referenced_columns self =
    referenced_names (afv.root (afv.filter_expr self)) (afv.validation_rules self).
Proof.
  unfold afv.referenced_columns, referenced_names.
  by rewrite collect_rule_columns, collect_fields_preorder.
Qed.

Section dedup.
Implicit Types (seen : gset string) (l : list string) (c x : string).

Lemma dedup_elem_of seen l x : x ∈ afv.dedup seen l ↔ x ∈ l ∧ x ∉ seen.
Proof.
  revert seen. induction l as [|c l IH]; intros seen; cbn.
  - set_solver.
  - case_bool_decide.
    + rewrite IH. set_solver.
    + rewrite elem_of_cons, IH. destruct (decide (x = c)) as [->|]; set_solver.
Qed.

Lemma dedup_NoDup seen l : NoDup (afv.dedup seen l).
Proof.
  revert seen. induction l as [|c l IH]; intros seen; cbn.
  - constructor.
  - case_bool_decide; [apply IH|]. constructor; [|apply IH].
    rewrite dedup_elem_of. set_solver.
Qed.

Lemma dedup_sublist seen l : afv.dedup seen l `sublist_of` l.
Proof.
  revert seen. induction l as [|c l IH]; intros seen; cbn.
  - constructor.
  - case_bool_decide; [apply sublist_cons|apply sublist_skip]; apply IH.
Qed.

(** A name of the result stands where its first occurrence stood: the
    names before it in the result are the names before that occurrence
    (those the set already held apart). *)
Lemma dedup_first_occurrence seen l before c after :
  afv.dedup seen l = before ++ c :: after →
  ∃ r1 r2, l = r1 ++ c :: r2 ∧ (c ∉ r1) ∧ (c ∉ seen) ∧
           (∀ x, x ∈ before ↔ (x ∈ r1 ∧ x ∉ seen)).
Proof.
  revert seen before. induction l as [|a l IH]; intros seen before; cbn.
  - by destruct before.
  - case_bool_decide as Ha.
    + intros (r1 & r2 & -> & Hc & Hs & Hb)%IH.
      exists (a :: r1), r2. split_and!; [done| |done|].
      * rewrite not_elem_of_cons. split; [|done]. by intros ->.
      * intros x. rewrite Hb, elem_of_cons. split.
        -- intros [? ?]. split; [by right|done].
        -- intros [[->|?] ?]; [done|by split].
    + destruct before as [|b before]; cbn.
      * intros [= -> _]. exists [], l. split_and!; [done| |done|].
        -- apply not_elem_of_nil.
        -- intros x. split; [by intros ?%elem_of_nil|by intros [?%elem_of_nil _]].
      * intros [= -> (r1 & r2 & -> & Hc & Hs & Hb)%IH].
        apply not_elem_of_union in Hs as [Hcb%not_elem_of_singleton Hs].
        exists (b :: r1), r2. split_and!; [done| |done|].
        -- rewrite not_elem_of_cons. by split.
        -- intros x. rewrite !elem_of_cons, Hb, not_elem_of_union, not_elem_of_singleton.
           split.
           ++ intros [->|(? & ? & ?)]; [by split; [left|]|by split; [right|]].
           ++ intros [[->|?] ?]; [by left|].
              destruct (decide (x = b)) as [->|]; [by left|by right].
Qed.
End dedup.

(** C4. In column-projection mode the names gathered are the fields of
    the leaves of the filter tree in depth-first pre-order, followed by
    the column of every validation rule (every member, in order, for a
    uniqueness rule). The projected list has no duplicate, holds exactly
    the gathered names, keeps their order, and has every name where its
    first occurrence stood: the names before it are those gathered before
    that occurrence. The query selects these columns, qualified. *)
Theorem projected_columns (self : afv.QueryBuilder) :
  afv.referenced_columns self =
    referenced_names (afv.root (afv.filter_expr self)) (afv.validation_rules self) ∧
  NoDup (afv.unique_cols self) ∧
  (∀ c, c ∈ afv.unique_cols self ↔ c ∈ afv.referenced_columns self) ∧
  afv.unique_cols self `sublist_of` afv.referenced_columns self ∧
  (∀ before c after,
     afv.unique_cols self = before ++ c :: after →
     ∃ r1 r2, afv.referenced_columns self = r1 ++ c :: r2 ∧ (c ∉ r1) ∧
              (∀ x, x ∈ before ↔ x ∈ r1)) ∧
  (afv.generate_sql self false =
     (where_expr ← afv.combined_condition self;
      py.Ok (exp.Select (afv.column_expr (afv.dataset self) <$> afv.unique_cols self)
               (afv.table_expr (afv.dataset self)) where_expr))).
Proof.
  split_and!.
  - apply referenced_columns_names.
  - apply dedup_NoDup.
  - intros c. unfold afv.unique_cols. rewrite dedup_elem_of.
    split; [by intros [? _]|]. intros ?. split; [done|]. apply not_elem_of_empty.
  - apply dedup_sublist.
  - intros before c after (r1 & r2 & Hr & Hc & _ & Hb)%dedup_first_occurrence.
    exists r1, r2. split_and!; [done..|]. intros x. rewrite Hb.
    split; [by intros [? _]|]. intros ?. split; [done|]. apply not_elem_of_empty.
  - reflexivity.
Qed.


(** ** Literal coercion *)


(** C5, amended. Literal coercion maps a string to a string literal and
    every other value, scalar or not (a number, a boolean, null, a
    sequence, a nested object), to a numeric literal; it has no failing
    case, so a comparison leaf compiles whatever its value is. *)
Theorem literal_coercion_total
    (ds : afv.Dataset) (field operator : string) (k : comparison_kind)
    (v : py.value) :
  documented_kind (py.upper operator) = Some (Comparison k) →
  afv._to_literal v =
    match v with py.Str s => exp.Literal_string s | _ => exp.Literal_number v end ∧
  cbf._literal v =
    match v with py.Str s => exp.Literal_string s | _ => exp.Literal_number v end ∧
  afv.expression ds (afv.SimpleRule field operator v) =
    py.Ok (comparison k (afv.column_expr ds field)
             match v with py.Str s => exp.Literal_string s | _ => exp.Literal_number v end) ∧
  (cbf.parse (filter_json.leaf field operator v) ≫= cbf.expression ds) =
    py.Ok (comparison k (afv.column_expr ds field)
             match v with py.Str s => exp.Literal_string s | _ => exp.Literal_number v end).
Proof.
  intros Hk. split_and!; [done..| |].
  - rewrite afv_leaf_kind, Hk. by destruct v.
  - unfold filter_json.leaf. rewrite cbf_leaf_kind, Hk. by destruct v.
Qed.


(** ** Membership *)

Lemma documented_kind_IN : documented_kind "IN" = Some Membership.
Proof. reflexivity. Qed.


(** C6, amended. For a leaf whose operator is IN,
    [advanced_filter_validator] fails, with its [ValueError], exactly when
    the value is not iterable or is a single [str] or [bytes] value, and
    otherwise emits the membership predicate over the coerced elements,
    whatever they are; [class_based_filter] fails at parse time when the
    value is not iterable. *)
Theorem membership_value_check
    (ds : afv.Dataset) (field operator : string) (v : py.value) :
  py.upper operator = "IN" →
  afv.expression ds (afv.SimpleRule field operator v) =
    (if negb (py.is_iterable v) || py.is_str_or_bytes v
     then py.Raise (py.ValueError "IN operator requires a sequence of values")
     else py.Ok (exp.In (afv.column_expr ds field)
                   (literal_of <$> default [] (py.iter v)))) ∧
  ((∃ e, afv.expression ds (afv.SimpleRule field operator v) = py.Raise e) ↔
   (py.is_iterable v = false ∨ py.is_str_or_bytes v = true)) ∧
  (py.is_iterable v = false →
   cbf.parse (filter_json.leaf field operator v) =
     py.Raise (py.ValueError "IN operator requires a list of values")).
Proof.
  intros Hop.
  assert (Hk : documented_kind (py.upper operator) = Some Membership)
    by (rewrite Hop; apply documented_kind_IN).
  split_and!.
  - by rewrite afv_leaf_kind, Hk.
  - rewrite afv_leaf_kind, Hk.
    destruct (py.is_iterable v), (py.is_str_or_bytes v); cbn; naive_solver.
  - intros Hit. unfold filter_json.leaf. rewrite cbf_parse_leaf, Hk. cbn.
    by rewrite Hit.
Qed.




(** C7, amended. Compiling a membership node whose sequence of values is
    empty does not fail: it emits the membership predicate over the empty
    literal list, in both filter modules. *)
Theorem empty_membership_predicate
    (ds : afv.Dataset) (field operator : string) :
  py.upper operator = "IN" →
  afv.expression ds (afv.SimpleRule field operator (py.List_ [])) =
    py.Ok (exp.In (afv.column_expr ds field) []) ∧
  (cbf.parse (filter_json.leaf field operator (py.List_ [])) ≫= cbf.expression ds) =
    py.Ok (exp.In (afv.column_expr ds field) []) ∧
  cbf.expression ds (cbf.InFilter field []) =
    py.Ok (exp.In (afv.column_expr ds field) []).
Proof.
  intros Hop.
  assert (Hk : documented_kind (py.upper operator) = Some Membership)
    by (rewrite Hop; apply documented_kind_IN).
  split_and!; [|unfold filter_json.leaf|done].
  - by rewrite afv_leaf_kind, Hk.
  - by rewrite cbf_leaf_kind, Hk.
Qed.


(** ** Validation rules *)



(** C8, on the code. A uniqueness rule does not compile to [COUNT(star) =
    COUNT(DISTINCT key)]: in both validation modules its [expression]
    evaluates [exp.count], a name the library does not define, and raises
    [AttributeError] for every sequence of columns. *)
Theorem unique_values_rule_raises
    (ds : afv.Dataset) (ds' : dv.Dataset) (columns : list string) :
  afv.rule_expression ds (afv.UniqueValuesRule columns) =
    py.Raise (py.AttributeError "module 'sqlglot.expressions' has no attribute 'count'") ∧
  dv.rule_expression ds' (dv.UniqueValuesRule columns) =
    py.Raise (py.AttributeError "module 'sqlglot.expressions' has no attribute 'count'").
Proof. by split. Qed.

(** C9. A range rule is rejected at construction, with the [ValueError]
    on missing bounds, when both bounds are absent; once built it
    compiles, in both validation modules, to [column >= minimum AND column
    <= maximum] when both bounds are present and to the one comparison,
    unwrapped, when a single bound is. *)
Theorem range_predicate
    (ds : afv.Dataset) (ds' : dv.Dataset) (column : string)
    (minimum maximum : py.value) :
  afv.RangeRule_init column minimum maximum =
    (if afv.is_None minimum && afv.is_None maximum
     then py.Raise (py.ValueError "At least one of minimum or maximum must be provided")
     else py.Ok (afv.RangeRule column minimum maximum)) ∧
  dv.RangeRule_init column minimum maximum =
    (if dv.is_None minimum && dv.is_None maximum
     then py.Raise (py.ValueError "At least one of minimum or maximum must be provided")
     else py.Ok (dv.RangeRule column minimum maximum)) ∧
  (afv.RangeRule_init column minimum maximum ≫= afv.rule_expression ds) =
    (let col := afv.column_expr ds column in
     match afv.is_None minimum, afv.is_None maximum with
     | true, true =>
         py.Raise (py.ValueError "At least one of minimum or maximum must be provided")
     | false, true => py.Ok (exp.GTE col (exp.Literal_number minimum))
     | true, false => py.Ok (exp.LTE col (exp.Literal_number maximum))
     | false, false =>
         py.Ok (exp.And (exp.GTE col (exp.Literal_number minimum))
                  (exp.LTE col (exp.Literal_number maximum)))
     end) ∧
  (dv.RangeRule_init column minimum maximum ≫= dv.rule_expression ds') =
    (let col := dv.column_expr ds' column in
     match dv.is_None minimum, dv.is_None maximum with
     | true, true =>
         py.Raise (py.ValueError "At least one of minimum or maximum must be provided")
     | false, true => py.Ok (exp.GTE col (exp.Literal_number minimum))
     | true, false => py.Ok (exp.LTE col (exp.Literal_number maximum))
     | false, false =>
         py.Ok (exp.And (exp.GTE col (exp.Literal_number minimum))
                  (exp.LTE col (exp.Literal_number maximum)))
     end).
Proof.
  split_and!; [done| |..];
    unfold afv.RangeRule_init, dv.RangeRule_init;
    destruct minimum, maximum; reflexivity.
Qed.


(** ** A leaf without a value *)


(** C10, amended. For a JSON leaf with a field and an operator but no
    value, [from_json] always succeeds and yields a leaf whose value is
    [None]. When the operator is one of the nine comparison spellings,
    [FilterParser] succeeds too, and compiling coerces that [None] through
    the non-string branch into a numeric literal. With IN the missing
    value is rejected, at compile time by [advanced_filter_validator] and
    at parse time by [class_based_filter]; with an unknown operator the
    "Unsupported operator" error is raised at the same two places. *)
Theorem missing_value_defaults_to_None
    (ds : afv.Dataset) (field operator : string)
    (combinator : option string) (rules : option (list filter_json.node)) :
  let node := filter_json.Node (Some field) (Some operator) None combinator rules in
  afv.from_json node = py.Ok {| afv.root := afv.SimpleRule field operator py.None_ |} ∧
  match documented_kind (py.upper operator) with
  | Some (Comparison k) =>
      afv.expression ds (afv.SimpleRule field operator py.None_) =
        py.Ok (comparison k (afv.column_expr ds field) (exp.Literal_number py.None_)) ∧
      (∃ rule, cbf.parse node = py.Ok rule) ∧
      (cbf.parse node ≫= cbf.expression ds) =
        py.Ok (comparison k (afv.column_expr ds field) (exp.Literal_number py.None_))
  | Some Membership =>
      afv.expression ds (afv.SimpleRule field operator py.None_) =
        py.Raise (py.ValueError "IN operator requires a sequence of values") ∧
      cbf.parse node = py.Raise (py.ValueError "IN operator requires a list of values")
  | None =>
      afv.expression ds (afv.SimpleRule field operator py.None_) =
        py.Raise (py.ValueError ("Unsupported operator: " +:+ operator)) ∧
      cbf.parse node =
        py.Raise (py.ValueError ("Unsupported operator: " +:+ py.upper operator))
  end.
Proof.
  intros node. split; [done|].
  pose proof (afv_leaf_kind ds field operator py.None_) as Hafv.
  pose proof (cbf_leaf_kind ds field operator None combinator rules) as Hcbf.
  pose proof (cbf_parse_leaf field operator None combinator rules) as Hparse.
  fold node in Hcbf, Hparse.
  destruct (documented_kind (py.upper operator)) as [[k|]|]; [|done..].
  split_and!; [done| |done].
  rewrite Hparse. destruct k; by eexists.
Qed.


(** * Further properties *)

(** ** Induction on JSON filters and on class-based rules *)

Lemma node_rules_ind (P : filter_json.node → Prop) :
  (∀ field operator value combinator rules,
     Forall P (default [] rules) →
     P (filter_json.Node field operator value combinator rules)) →
  ∀ n, P n.
Proof.
  intros Hnode. fix IH 1. intros [field operator value combinator rules].
  apply Hnode. destruct rules as [rs|]; [|constructor]. cbn.
  induction rs as [|r rs IHrs]; constructor; [apply IH|apply IHrs].
Qed.

Lemma BaseFilterRule_children_ind (P : cbf.BaseFilterRule → Prop) :
  (∀ rule, group_combinators' rule = [] → P rule) →
  (∀ combinator children, Forall P children → P (cbf.LogicalGroup combinator children)) →
  ∀ rule, P rule.
Proof.
  intros Hleaf Hgroup. fix IH 1. intros rule.
  destruct rule as [| | | | | | | |combinator children]; try by apply Hleaf.
  apply Hgroup. induction children as [|child children IHc]; constructor;
    [apply IH|apply IHc].
Qed.

(** A comprehension raises what the body raises on one of the elements. *)
Lemma comprehension_Raise_inv {A B} (f : A → py.result B) l e :
  py.comprehension f l = py.Raise e → ∃ x, x ∈ l ∧ f x = py.Raise e.
Proof.
  induction l as [|x l IH]; [done|]. rewrite comprehension_cons.
  destruct (f x) as [y|e'] eqn:Hx; cbn.
  - destruct (py.comprehension f l) as [ys|e'']; [done|]. cbn. intros [= ->].
    destruct IH as (x' & ? & ?); [done|]. exists x'. split; [by right|done].
  - intros [= ->]. exists x. split; [by left|done].
Qed.

Lemma comprehension_Ok_Forall {A B} (f : A → py.result B) l :
  (∃ ys, py.comprehension f l = py.Ok ys) ↔ Forall (λ x, ∃ y, f x = py.Ok y) l.
Proof.
  split.
  - intros [ys Hys%comprehension_Ok_inv].
    induction Hys; constructor; eauto.
  - induction 1 as [|x l [y Hy] _ [ys IH]]; [by exists []|].
    exists (y :: ys). rewrite comprehension_cons, Hy. cbn. by rewrite IH.
Qed.

Lemma GroupRule_init_Ok combinator children t :
  afv.GroupRule_init combinator children = py.Ok t →
  t = afv.GroupRule (py.upper combinator) children ∧
  (py.upper combinator = "AND" ∨ py.upper combinator = "OR").
Proof.
  unfold afv.GroupRule_init. case_bool_decide as Hc; [done|].
  intros [= <-]. split; [done|].
  set_solver.
Qed.

Lemma LogicalGroup_init_Ok combinator children t :
  cbf.LogicalGroup_init combinator children = py.Ok t →
  t = cbf.LogicalGroup (py.upper combinator) children ∧
  (py.upper combinator = "AND" ∨ py.upper combinator = "OR").
Proof.
  unfold cbf.LogicalGroup_init. case_bool_decide as Hc; [done|].
  intros [= <-]. split; [done|].
  set_solver.
Qed.

(** The children of a parsed group, taken apart. *)
Lemma afv_parse_group operator value combinator rules t :
  afv.parse (filter_json.Node None operator value (Some combinator) rules) = py.Ok t →
  ∃ children,
    py.comprehension afv.parse (default [] rules) = py.Ok children ∧
    t = afv.GroupRule (py.upper combinator) children ∧
    (py.upper combinator = "AND" ∨ py.upper combinator = "OR").
Proof.
  cbn [afv.parse].
  assert (Hrules : match rules with
                   | Some children_defs => py.comprehension afv.parse children_defs
                   | None => py.comprehension afv.parse []
                   end = py.comprehension afv.parse (default [] rules))
    by by destruct rules.
  rewrite Hrules.
  destruct (py.comprehension afv.parse (default [] rules)) as [children|e]; [|done].
  cbn. intros [-> ?]%GroupRule_init_Ok. by exists children.
Qed.

Lemma cbf_parse_group operator value combinator rules t :
  cbf.parse (filter_json.Node None operator value (Some combinator) rules) = py.Ok t →
  ∃ children,
    py.comprehension cbf.parse (default [] rules) = py.Ok children ∧
    t = cbf.LogicalGroup (py.upper combinator) children ∧
    (py.upper combinator = "AND" ∨ py.upper combinator = "OR").
Proof.
  cbn [cbf.parse].
  assert (Hrules : match rules with
                   | Some children_defs => py.comprehension cbf.parse children_defs
                   | None => py.comprehension cbf.parse []
                   end = py.comprehension cbf.parse (default [] rules))
    by by destruct rules.
  rewrite Hrules. destruct combinator as [|a combinator]; [done|].
  destruct (py.comprehension cbf.parse (default [] rules)) as [children|e]; [|done].
  cbn. intros [-> ?]%LogicalGroup_init_Ok. by exists children.
Qed.

(** ** What a parsed tree looks like *)

(** X1. Every group of a tree that [from_json] or [FilterParser.parse]
    returns carries the upper-cased combinator "AND" or "OR", at any
    depth. *)
Theorem parsed_combinators_normalised
    (n : filter_json.node) (t : afv.FilterNode) (r : cbf.BaseFilterRule) :
  (afv.parse n = py.Ok t →
   Forall (λ c, c = "AND" ∨ c = "OR") (group_combinators t)) ∧
  (cbf.parse n = py.Ok r →
   Forall (λ c, c = "AND" ∨ c = "OR") (group_combinators' r)).
Proof.
  split.
  - revert t. induction n as [field operator value combinator rules IH]
      using node_rules_ind. intros t.
    destruct field as [field|].
    { cbn. destruct operator; [|done]. intros [= <-]. constructor. }
    destruct combinator as [combinator|]; [|done].
    intros (children & Hch%comprehension_Ok_inv & -> & Hc)%afv_parse_group.
    cbn. constructor; [done|]. apply Forall_concat, Forall_fmap.
    clear Hc. induction Hch as [|x y l k Hxy _ IHk]; constructor.
    + cbn. by apply (Forall_inv IH).
    + apply IHk. by eapply Forall_inv_tail.
  - revert r. induction n as [field operator value combinator rules IH]
      using node_rules_ind. intros r.
    destruct field as [field|].
    { destruct operator as [operator|]; [|done].
      rewrite cbf_parse_leaf.
      destruct (documented_kind _) as [[k|]|]; [| |done].
      - destruct k; intros [= <-]; constructor.
      - destruct (negb _); [done|]. unfold cbf.InFilter_init.
        destruct (py.iter _); [|done]. intros [= <-]. constructor. }
    destruct combinator as [combinator|]; [|done].
    intros (children & Hch%comprehension_Ok_inv & -> & Hc)%cbf_parse_group.
    cbn. constructor; [done|]. apply Forall_concat, Forall_fmap.
    clear Hc. induction Hch as [|x y l k Hxy _ IHk]; constructor.
    + cbn. by apply (Forall_inv IH).
    + apply IHk. by eapply Forall_inv_tail.
Qed.

Lemma afv_parse_fields n t :
  afv.parse n = py.Ok t → fields_preorder t = json_fields n.
Proof.
  revert t. induction n as [field operator value combinator rules IH]
    using node_rules_ind. intros t.
  destruct field as [field|].
  { cbn. destruct operator; [|done]. by intros [= <-]. }
  destruct combinator as [combinator|]; [|done].
  intros (children & Hch%comprehension_Ok_inv & -> & _)%afv_parse_group.
  cbn [fields_preorder json_fields].
  assert (Hj : match rules with
               | Some rules0 => concat (json_fields <$> rules0)
               | None => []
               end = concat (json_fields <$> default [] rules)) by by destruct rules.
  rewrite Hj. clear Hj. f_equal.
  induction Hch as [|x y l k Hxy _ IHk]; [done|]. cbn. f_equal.
  - by apply (Forall_inv IH).
  - apply IHk. by eapply Forall_inv_tail.
Qed.

(** X2. Parsing keeps the document order of the fields: the names the
    query builder gathers for a filter that [from_json] returned are the
    [field] entries of the JSON in document order, followed by the columns
    of the validation rules. *)
Theorem parsed_fields_in_document_order
    (n : filter_json.node) (fe : afv.FilterExpression)
    (ds : afv.Dataset) (rules : list afv.ValidationRule) :
  afv.from_json n = py.Ok fe →
  afv.referenced_columns
    {| afv.dataset := ds; afv.filter_expr := fe; afv.validation_rules := rules |} =
  json_fields n ++ concat (rule_columns <$> rules).
Proof.
  unfold afv.from_json. destruct (afv.parse n) as [t|e] eqn:Ht; [|done].
  intros Hfe. cbn in Hfe. injection Hfe as <-.
  rewrite referenced_columns_names. unfold referenced_names.
  cbn [afv.root afv.filter_expr afv.validation_rules].
  by rewrite (afv_parse_fields _ _ Ht).
Qed.


(** ** Where compiling can fail *)

(** A connective over the compiled children never raises. *)
Lemma group_step_Ok (combinator : string) (ps : list exp.Expression) :
  ∃ p, match ps with
       | [] => py.Ok exp.true
       | _ => if bool_decide (combinator = "AND") then exp.and_ ps else exp.or_ ps
       end = py.Ok p.
Proof.
  destruct ps as [|p ps]; [by eexists|].
  unfold exp.and_, exp.or_. case_bool_decide; rewrite _combine_fold_under; by eexists.
Qed.

Lemma afv_group_Ok_iff ds combinator children :
  (∃ p, afv.expression ds (afv.GroupRule combinator children) = py.Ok p) ↔
  Forall (λ child, ∃ p, afv.expression ds child = py.Ok p) children.
Proof.
  rewrite <-comprehension_Ok_Forall. cbn [afv.expression]. split.
  - intros [p Hp]. destruct (py.comprehension _ children) as [ps|e]; [by eexists|done].
  - intros [ps ->]. cbn. apply group_step_Ok.
Qed.

Lemma afv_group_Raise ds combinator children e :
  afv.expression ds (afv.GroupRule combinator children) = py.Raise e →
  ∃ child, child ∈ children ∧ afv.expression ds child = py.Raise e.
Proof.
  cbn [afv.expression].
  destruct (py.comprehension _ children) as [ps|e'] eqn:Hc; cbn.
  - destruct (group_step_Ok combinator ps) as [p ->]. done.
  - intros [= ->]. by apply comprehension_Raise_inv.
Qed.

Lemma afv_expression_Ok_iff ds t :
  (∃ p, afv.expression ds t = py.Ok p) ↔
  Forall (λ l, ∃ p, afv.SimpleRule_expression ds l.1.1 l.1.2 l.2 = py.Ok p) (leaves t).
Proof.
  induction t as [field operator value|combinator children IH]
    using FilterNode_children_ind.
  - cbn. by rewrite Forall_singleton.
  - rewrite afv_group_Ok_iff. cbn [leaves].
    rewrite Forall_concat, Forall_fmap.
    induction IH as [|child children Hchild _ IHc].
    + split; constructor.
    + rewrite !Forall_cons. cbn. by rewrite Hchild, IHc.
Qed.

(** X3. A group adds no failure of its own: a filter tree of
    [advanced_filter_validator] compiles exactly when each of its leaves
    does, and an exception that escapes from compiling the tree is the
    exception of one of its leaves. *)
Theorem compile_fails_only_at_leaves (ds : afv.Dataset) (t : afv.FilterNode) :
  ((∃ p, afv.expression ds t = py.Ok p) ↔
   Forall (λ l, ∃ p, afv.SimpleRule_expression ds l.1.1 l.1.2 l.2 = py.Ok p)
     (leaves t)) ∧
  (∀ e, afv.expression ds t = py.Raise e →
        ∃ l, l ∈ leaves t ∧
             afv.SimpleRule_expression ds l.1.1 l.1.2 l.2 = py.Raise e).
Proof.
  split; [apply afv_expression_Ok_iff|].
  induction t as [field operator value|combinator children IH]
    using FilterNode_children_ind.
  - intros e He. exists (field, operator, value). split; [|done].
    cbn. apply list_elem_of_singleton. done.
  - intros e (child & Hin & He)%afv_group_Raise.
    rewrite Forall_forall in IH.
    destruct (IH child Hin e He) as (l & Hl & Hraise). exists l. split; [|done].
    cbn [leaves]. apply list_elem_of_In, in_concat. exists (leaves child).
    split; [|by apply list_elem_of_In].
    apply list_elem_of_In, list_elem_of_fmap. by exists child.
Qed.

(** X4. Compiling a rule tree of [class_based_filter] never raises: every
    check of that module is made when the tree is parsed or built. *)
Theorem class_based_compile_never_raises
    (ds : afv.Dataset) (rule : cbf.BaseFilterRule) :
  ∃ p, cbf.expression ds rule = py.Ok p.
Proof.
  induction rule as [rule Hleaf|combinator children IH]
    using BaseFilterRule_children_ind.
  - destruct rule; try discriminate Hleaf; by eexists.
  - cbn [cbf.expression].
    apply comprehension_Ok_Forall in IH as [ps ->]. cbn. apply group_step_Ok.
Qed.

(** ** The two filter builders side by side *)

Lemma cbf_parse_group_Ok operator value combinator rules children :
  py.upper combinator = "AND" ∨ py.upper combinator = "OR" →
  py.comprehension cbf.parse (default [] rules) = py.Ok children →
  cbf.parse (filter_json.Node None operator value (Some combinator) rules) =
    py.Ok (cbf.LogicalGroup (py.upper combinator) children).
Proof.
  intros Hc Hch. cbn [cbf.parse].
  assert (Hrules : match rules with
                   | Some children_defs => py.comprehension cbf.parse children_defs
                   | None => py.comprehension cbf.parse []
                   end = py.comprehension cbf.parse (default [] rules))
    by by destruct rules.
  rewrite Hrules, Hch. destruct combinator as [|a combinator].
  { rewrite (py.upper_ascii_text "") in Hc by done. by destruct Hc. }
  cbn [mbind py.result_bind py.bind]. unfold cbf.LogicalGroup_init.
  rewrite bool_decide_eq_false_2; [done|]. set_solver.
Qed.

(** Pipelines taken apart. *)
Lemma bind_Ok_inv {A B} (m : py.result A) (k : A → py.result B) b :
  (m ≫= k) = py.Ok b → ∃ a, m = py.Ok a ∧ k a = py.Ok b.
Proof. destruct m as [a|e]; [|done]. intros ?. by exists a. Qed.

Lemma children_agree ds rs ts ps :
  Forall (λ n, ∀ p, (afv.parse n ≫= afv.expression ds) = py.Ok p →
                    (cbf.parse n ≫= cbf.expression ds) = py.Ok p) rs →
  py.comprehension afv.parse rs = py.Ok ts →
  py.comprehension (afv.expression ds) ts = py.Ok ps →
  ∃ rs', py.comprehension cbf.parse rs = py.Ok rs' ∧
         py.comprehension (cbf.expression ds) rs' = py.Ok ps.
Proof.
  intros IH. revert ts ps. induction IH as [|n rs Hn _ IHrs]; intros ts ps.
  - intros [= <-] [= <-]. by exists [].
  - intros Hts%comprehension_Ok_inv Hps%comprehension_Ok_inv.
    inversion Hts as [|? t ? ts' Ht Hts']; subst.
    inversion Hps as [|? p ? ps' Hp Hps']; subst.
    apply comprehension_Forall2 in Hts', Hps'.
    destruct (IHrs _ _ Hts' Hps') as (rs' & Hrs' & Hps'').
    destruct (bind_Ok_inv _ _ _ (Hn p ltac:(by rewrite Ht))) as (r & Hr & Hrp).
    exists (r :: rs'). rewrite !comprehension_cons, Hr, Hrs'. cbn.
    by rewrite Hrp, Hps''.
Qed.

(** X5. Whenever [advanced_filter_validator] parses and compiles a JSON
    filter, [class_based_filter] parses and compiles it too, to the same
    predicate. *)
Theorem class_based_agrees_with_advanced
    (ds : afv.Dataset) (n : filter_json.node) (p : exp.Expression) :
  (afv.parse n ≫= afv.expression ds) = py.Ok p →
  (cbf.parse n ≫= cbf.expression ds) = py.Ok p.
Proof.
  revert p. induction n as [field operator value combinator rules IH]
    using node_rules_ind. intros p.
  destruct field as [field|].
  - destruct operator as [operator|]; [|done].
    intros H. cbn in H. change (afv.SimpleRule_expression ds field operator ?v)
      with (afv.expression ds (afv.SimpleRule field operator v)) in H.
    rewrite afv_leaf_kind in H. rewrite cbf_leaf_kind.
    destruct (documented_kind _) as [[k|]|]; [done| |done].
    destruct (py.is_iterable _), (py.is_str_or_bytes _); done.
  - destruct combinator as [combinator|]; [|done].
    intros (t & Ht & Hp)%bind_Ok_inv.
    apply afv_parse_group in Ht as (ts & Hts & -> & Hc).
    cbn [afv.expression] in Hp.
    apply bind_Ok_inv in Hp as (ps & Hps & Hp).
    destruct (children_agree ds _ _ _ IH Hts Hps) as (rs' & Hrs' & Hps').
    rewrite (cbf_parse_group_Ok _ _ _ _ _ Hc Hrs'). cbn. by rewrite Hps'.
Qed.


(** ** Validation rules *)


Lemma afv_rule_Raise_iff ds rule e :
  afv.rule_expression ds rule = py.Raise e ↔ rule_failure rule = Some e.
Proof.
  destruct rule as [c|cs|c vs|c mn mx]; cbn;
    [split; intros H; first [discriminate H|by injection H as <-]..|].
  unfold afv.RangeRule_expression.
  destruct mn, mx; cbn; split; intros H;
    first [discriminate H|by injection H as <-].
Qed.

Lemma afv_rule_Ok_iff ds rule :
  (∃ p, afv.rule_expression ds rule = py.Ok p) ↔ rule_failure rule = None.
Proof.
  destruct rule as [c|cs|c vs|c mn mx]; cbn;
    [split; intros H; first [discriminate H|by destruct H|by eexists]..|].
  unfold afv.RangeRule_expression.
  destruct mn, mx; cbn; split; intros H;
    first [discriminate H|by destruct H|by eexists].
Qed.

(** X6. Compiling a validation rule fails in three cases only: a
    not-null rule and a uniqueness rule always raise [AttributeError]
    (they name [exp.IsNot] and [exp.count], which the library does not
    define), and a range rule that holds no bound raises [IndexError]. An
    allowed-values rule always compiles, and so does every range rule its
    constructor returned. *)
Theorem rule_compile_failure
    (ds : afv.Dataset) (rule : afv.ValidationRule) :
  (∀ e, afv.rule_expression ds rule = py.Raise e ↔ rule_failure rule = Some e) ∧
  ((∃ p, afv.rule_expression ds rule = py.Ok p) ↔ rule_failure rule = None) ∧
  (∀ column minimum maximum,
     afv.RangeRule_init column minimum maximum = py.Ok rule →
     ∃ p, afv.rule_expression ds rule = py.Ok p).
Proof.
  split_and!.
  - intros e. apply afv_rule_Raise_iff.
  - apply afv_rule_Ok_iff.
  - intros column minimum maximum. unfold afv.RangeRule_init.
    destruct minimum, maximum; cbn; intros [= <-]; by eexists.
Qed.

(** X7. [dataset_validator] and [advanced_filter_validator] compile a
    rule of the same class and arguments, over the same table, to the
    same result, and their [RangeRule] constructors accept the same
    bounds. *)
Theorem validation_modules_agree
    (ds : afv.Dataset) (ds' : dv.Dataset) (rule : dv.ValidationRule)
    (column : string) (minimum maximum : py.value) :
  dv.table_name ds' = afv.table_name ds →
  dv.rule_expression ds' rule = afv.rule_expression ds (same_rule rule) ∧
  (r ← dv.RangeRule_init column minimum maximum; py.Ok (same_rule r)) =
    afv.RangeRule_init column minimum maximum.
Proof.
  intros Ht. split.
  - destruct rule as [c|cs|c vs|c mn mx]; cbn;
      unfold dv.UniqueValuesRule_expression, afv.UniqueValuesRule_expression,
        dv.RangeRule_expression, afv.RangeRule_expression,
        dv.column_expr, afv.column_expr; by rewrite ?Ht.
  - unfold dv.RangeRule_init, afv.RangeRule_init.
    by destruct minimum, maximum.
Qed.


(** X8. An allowed-values rule compiles to the predicate of a filter
    leaf with operator IN over the list of the allowed values, whatever
    the letter case of the operator. *)
Theorem allowed_values_is_membership
    (ds : afv.Dataset) (column operator : string) (allowed : list py.value) :
  py.upper operator = "IN" →
  afv.rule_expression ds (afv.AllowedValuesRule column allowed) =
    afv.expression ds (afv.SimpleRule column operator (py.List_ allowed)).
Proof.
  intros Hop. by rewrite afv_leaf_kind, Hop.
Qed.





(** ** The Validator *)

Lemma dv_rule_Ok ds' rule :
  rule_failure (same_rule rule) = None → ∃ p, dv.rule_expression ds' rule = py.Ok p.
Proof.
  destruct rule as [c|cs|c vs|c mn mx]; cbn; [done|done|by eexists|].
  unfold dv.RangeRule_expression. destruct mn, mx; cbn; intros ?;
    try discriminate; by eexists.
Qed.

(** X9. When every rule is an allowed-values rule or a range rule with a
    bound, every rule compiles and [Validator.combined_expression]
    returns "always true" for no rule, the rule's own predicate for one
    rule, and the AND chain of the predicates, in the order of the rules,
    for several. *)
Theorem validator_combined_expression (self : validator.Validator) :
  Forall (λ rule, rule_failure (same_rule rule) = None) (validator.rules self) →
  ∃ ps,
    Forall2 (λ rule p, dv.rule_expression (validator.dataset self) rule = py.Ok p)
      (validator.rules self) ps ∧
    validator.combined_expression self = py.Ok (fold_under exp.And ps).
Proof.
  intros Hrules.
  assert (∃ ps, py.comprehension (dv.rule_expression (validator.dataset self))
                  (validator.rules self) = py.Ok ps) as [ps Hps].
  { apply comprehension_Ok_Forall. eapply Forall_impl; [done|].
    intros rule. apply dv_rule_Ok. }
  exists ps. split; [by apply comprehension_Ok_inv|].
  unfold validator.combined_expression. rewrite Hps. cbn.
  destruct ps as [|p ps]; [done|]. apply _combine_fold_under.
Qed.

Lemma projection_inr rules columns :
  validator.projection rules = inr columns →
  columns = [] ∧ Forall (λ rule, validator.projected rule = false) rules.
Proof.
  induction rules as [|rule rules IH]; cbn.
  - intros [= <-]. by split.
  - destruct (validator.projected rule) eqn:Hp; [done|].
    intros [-> ?]%IH. split; [done|]. by constructor.
Qed.

Lemma projection_inl rules :
  Exists (λ rule, validator.projected rule = true) rules →
  validator.projection rules = inl (validator.NameError "dataset").
Proof.
  induction 1 as [rule rules Hp|rule rules _ IH]; cbn.
  - by rewrite Hp.
  - by destruct (validator.projected rule).
Qed.

(** X10. In column-projection mode [Validator.generate_sql] never
    returns a query that selects a column. When the rules compile and one
    of them is a not-null, allowed-values or range rule with a non-empty
    column, the call ends in [NameError] on the unbound name [dataset];
    the only query it can return selects nothing, and only when no rule
    names such a column. *)
Theorem validator_projection_selects_nothing (self : validator.Validator) :
  (∀ q, validator.generate_sql self false = inr q →
        ∃ condition,
          validator.combined_expression self = py.Ok condition ∧
          q = exp.Select [] (dv.table_expr (validator.dataset self)) condition ∧
          Forall (λ rule, validator.projected rule = false) (validator.rules self)) ∧
  (∀ condition,
     validator.combined_expression self = py.Ok condition →
     Exists (λ rule, validator.projected rule = true) (validator.rules self) →
     validator.generate_sql self false = inl (validator.NameError "dataset")) ∧
  (∀ condition,
     validator.combined_expression self = py.Ok condition →
     validator.generate_sql self true =
       inr (exp.Select [exp.Star] (dv.table_expr (validator.dataset self)) condition)).
Proof.
  unfold validator.generate_sql. split_and!.
  - intros q. destruct (validator.combined_expression self) as [condition|e]; [|done].
    destruct (validator.projection _) as [e|columns] eqn:Hp; [done|].
    apply projection_inr in Hp as [-> Hp]. intros [= <-]. by exists condition.
  - intros condition -> Hex. by rewrite (projection_inl _ Hex).
  - by intros condition ->.
Qed.


(** ** The projected query *)

#[local] Instance column_expr_inj ds : Inj (=) (=) (afv.column_expr ds).
Proof. by intros c c' [= ->]. Qed.

(** X11. A query that [QueryBuilder.generate_sql] returns in projection
    mode selects no column twice, and it has the table and the WHERE
    condition of the query returned in select-all mode. *)
Theorem projection_query_shape (self : afv.QueryBuilder) (q : exp.Expression) :
  afv.generate_sql self false = py.Ok q →
  ∃ columns where_expr,
    q = exp.Select columns (afv.table_expr (afv.dataset self)) where_expr ∧
    NoDup columns ∧
    columns = afv.column_expr (afv.dataset self) <$> afv.unique_cols self ∧
    afv.combined_condition self = py.Ok where_expr ∧
    afv.generate_sql self true =
      py.Ok (exp.Select [exp.Star] (afv.table_expr (afv.dataset self)) where_expr).
Proof.
  unfold afv.generate_sql.
  destruct (afv.combined_condition self) as [where_expr|e]; [|done].
  cbn. intros [= <-]. eexists _, where_expr. split_and!; try done.
  apply (NoDup_fmap_2 _), dedup_NoDup.
Qed.


Lemma dedup_NoDup_id seen l :
  NoDup l → Forall (λ c, c ∉ seen) l → afv.dedup seen l = l.
Proof.
  intros Hl. revert seen. induction Hl as [|c l Hc _ IH]; intros seen Hseen; [done|].
  cbn. apply Forall_cons in Hseen as [Hcs Hseen].
  rewrite bool_decide_eq_false_2 by done. f_equal. apply IH.
  rewrite Forall_forall in Hseen |- *. intros x Hx.
  rewrite not_elem_of_union, not_elem_of_singleton. split; [|by apply Hseen].
  by intros ->.
Qed.

(** X12. When the names the filter and the rules refer to are pairwise
    distinct, the projected column list is the list of these names as
    gathered; deduplicating the projected list again changes nothing. *)
Theorem unique_cols_of_distinct_names (self : afv.QueryBuilder) :
  (NoDup (afv.referenced_columns self) →
   afv.unique_cols self = afv.referenced_columns self) ∧
  afv.dedup ∅ (afv.unique_cols self) = afv.unique_cols self.
Proof.
  split.
  - intros Hl. apply dedup_NoDup_id; [done|].
    apply Forall_forall. intros x _. apply not_elem_of_empty.
  - apply dedup_NoDup_id; [apply dedup_NoDup|].
    apply Forall_forall. intros x _. apply not_elem_of_empty.
Qed.



(** ** When a query is generated *)

(** X13. [QueryBuilder.generate_sql] returns a query, in either mode,
    exactly when every leaf of the filter compiles and every validation
    rule is an allowed-values rule or a range rule with a bound (a
    not-null or a uniqueness rule makes it raise). *)
Theorem generate_sql_succeeds_iff (self : afv.QueryBuilder) (select_all : bool) :
  (∃ q, afv.generate_sql self select_all = py.Ok q) ↔
  (Forall (λ l, ∃ p, afv.SimpleRule_expression (afv.dataset self) l.1.1 l.1.2 l.2 = py.Ok p)
     (leaves (afv.root (afv.filter_expr self))) ∧
   Forall (λ rule, rule_failure rule = None) (afv.validation_rules self)).
Proof.
  rewrite <-afv_expression_Ok_iff.
  rewrite <-(Forall_iff _ _ _ (afv_rule_Ok_iff (afv.dataset self))).
  rewrite <-comprehension_Ok_Forall.
  unfold afv.generate_sql, afv.combined_condition, afv.FilterExpression_expression.
  split.
  - intros [q Hq].
    destruct (afv.expression _ _) as [f|e]; [|done]. cbn in Hq.
    destruct (py.comprehension _ _) as [vs|e]; [|done]. by split; eexists.
  - intros [[f ->] [vs ->]]. cbn. rewrite combine_fold_under. cbn.
    destruct select_all; by eexists.
Qed.

(** ** Letter case *)

(** X14. Two operator spellings with the same upper-case form are
    handled alike: [FilterParser.parse] returns the same result for both,
    and for a recognised operator [SimpleRule] compiles both to the same
    predicate; two such combinator spellings build the same group. *)
Theorem operator_case_insensitive
    (ds : afv.Dataset) (field o1 o2 : string) (v : py.value)
    (value : option py.value) (combinator : option string)
    (rules : option (list filter_json.node)) (children : list afv.FilterNode) :
  py.upper o1 = py.upper o2 →
  (is_Some (documented_kind (py.upper o1)) →
   afv.expression ds (afv.SimpleRule field o1 v) =
     afv.expression ds (afv.SimpleRule field o2 v)) ∧
  cbf.parse (filter_json.Node (Some field) (Some o1) value combinator rules) =
    cbf.parse (filter_json.Node (Some field) (Some o2) value combinator rules) ∧
  afv.GroupRule_init o1 children = afv.GroupRule_init o2 children.
Proof.
  intros Hup. split_and!.
  - intros [k Hk]. rewrite !afv_leaf_kind, <-Hup, Hk. by destruct k.
  - by rewrite !cbf_parse_leaf, Hup.
  - unfold afv.GroupRule_init. by rewrite Hup.
Qed.


(** ** The accepted documents *)

Lemma afv_parse_group_Ok operator value combinator rules children :
  py.upper combinator = "AND" ∨ py.upper combinator = "OR" →
  py.comprehension afv.parse (default [] rules) = py.Ok children →
  afv.parse (filter_json.Node None operator value (Some combinator) rules) =
    py.Ok (afv.GroupRule (py.upper combinator) children).
Proof.
  intros Hc Hch. cbn [afv.parse].
  assert (Hrules : match rules with
                   | Some children_defs => py.comprehension afv.parse children_defs
                   | None => py.comprehension afv.parse []
                   end = py.comprehension afv.parse (default [] rules))
    by by destruct rules.
  rewrite Hrules, Hch. cbn [mbind py.result_bind py.bind].
  unfold afv.GroupRule_init. rewrite bool_decide_eq_false_2; [done|]. set_solver.
Qed.

(** X15. [from_json] returns a filter exactly for the accepted
    documents: every node with a [field] key has an [operator] key, and
    every other node has a [combinator] that reads AND or OR once
    upper-cased. No operator and no value is checked at this stage. *)
Theorem from_json_accepts (n : filter_json.node) :
  (∃ fe, afv.from_json n = py.Ok fe) ↔ accepted n.
Proof.
  assert (Hparse : (∃ fe, afv.from_json n = py.Ok fe) ↔ (∃ t, afv.parse n = py.Ok t)).
  { unfold afv.from_json. destruct (afv.parse n) as [t|e]; cbn; [|by split; intros [? ?]].
    split; intros _; by eexists. }
  rewrite Hparse. clear Hparse.
  induction n as [field operator value combinator rules IH] using node_rules_ind.
  destruct field as [field|].
  { destruct operator as [operator|].
    - split; [constructor|by eexists].
    - split; [by intros [? ?]|inversion 1]. }
  destruct combinator as [combinator|]; [|split; [by intros [? ?]|inversion 1]].
  split.
  - intros [t (children & Hch & -> & Hc)%afv_parse_group]. constructor; [done|].
    apply comprehension_Ok_inv in Hch.
    induction Hch as [|x y l k Hxy _ IHk]; constructor.
    + apply (Forall_inv IH). by eexists.
    + apply IHk. by eapply Forall_inv_tail.
  - inversion 1 as [|? ? ? ? Hc Hacc]; subst.
    assert (∃ children, py.comprehension afv.parse (default [] rules) = py.Ok children)
      as [children Hch].
    { apply comprehension_Ok_Forall.
      induction Hacc as [|x l Hx _ IHl]; constructor.
      - by apply (Forall_inv IH).
      - apply IHl. by eapply Forall_inv_tail. }
    eexists. by apply afv_parse_group_Ok.
Qed.

End properties.

(** * Worked instances

    The instances below are closed: all their strings are ASCII, and the
    string builtins are taken on ASCII text. *)

#[global] Existing Instance py.ascii_text.

Lemma upper_idempotent_on_keys :
  py.upper "like" = "LIKE" ∧ py.upper "In" = "IN" ∧ py.upper "<>" = "<>".
Proof. by vm_compute. Qed.

(** The spec's scenarios on a single leaf, an empty group and a
    membership leaf, from JSON to predicate. *)
Example scenario_leaf_group_membership :
  (r ← afv.parse (filter_json.leaf "age" ">" (py.Int 18));
   afv.expression sample_dataset r) =
    py.Ok (exp.GT (exp.Column "age" "t") (exp.Literal_number (py.Int 18))) ∧
  (r ← afv.parse (filter_json.group "OR" []); afv.expression sample_dataset r) =
    py.Ok (exp.Boolean true) ∧
  (r ← afv.parse (filter_json.leaf "status" "IN" (py.List_ [py.Str "a"; py.Str "b"]));
   afv.expression sample_dataset r) =
    py.Ok (exp.In (exp.Column "status" "t")
             [exp.Literal_string "a"; exp.Literal_string "b"]).
Proof. by vm_compute. Qed.

Lemma group_compiles_to_fold_witness :
  afv.expression sample_dataset
    (afv.GroupRule "OR"
       [afv.SimpleRule "a" "=" (py.Str "x");
        afv.GroupRule "AND" [afv.SimpleRule "b" ">" (py.Int 1);
                             afv.SimpleRule "c" "<" (py.Int 9)];
        afv.SimpleRule "d" "like" (py.Str "%z")]) =
  py.Ok
    (exp.Or
       (exp.Or (exp.EQ (exp.Column "a" "t") (exp.Literal_string "x"))
          (exp.Paren
             (exp.And (exp.GT (exp.Column "b" "t") (exp.Literal_number (py.Int 1)))
                (exp.LT (exp.Column "c" "t") (exp.Literal_number (py.Int 9))))))
       (exp.Like (exp.Column "d" "t") (exp.Literal_string "%z"))).
Proof.
  refine (proj1 (proj2 (group_compiles_to_fold sample_dataset
    [afv.SimpleRule "a" "=" (py.Str "x");
     afv.GroupRule "AND" [afv.SimpleRule "b" ">" (py.Int 1);
                          afv.SimpleRule "c" "<" (py.Int 9)];
     afv.SimpleRule "d" "like" (py.Str "%z")]
    [cbf.EqualsFilter "a" (py.Str "x")]
    [exp.EQ (exp.Column "a" "t") (exp.Literal_string "x");
     exp.And (exp.GT (exp.Column "b" "t") (exp.Literal_number (py.Int 1)))
       (exp.LT (exp.Column "c" "t") (exp.Literal_number (py.Int 9)));
     exp.Like (exp.Column "d" "t") (exp.Literal_string "%z")]
    [exp.EQ (exp.Column "a" "t") (exp.Literal_string "x")] _ _)));
    repeat constructor.
Defined.

Lemma combined_condition_not_null_raises_witness :
  afv.combined_condition scenario_builder =
    py.Raise (py.AttributeError "module 'sqlglot.expressions' has no attribute 'IsNot'").
Proof.
  apply (combined_condition_not_null_raises scenario_builder
           (exp.EQ (exp.Column "field1" "t") (exp.Literal_string "v1")) "field1" []);
    reflexivity.
Defined.

Lemma combined_condition_order_witness :
  afv.combined_condition sample_builder =
    py.Ok
      (exp.And
         (exp.And (exp.EQ (exp.Column "field1" "t") (exp.Literal_string "v1"))
            (exp.In (exp.Column "field1" "t")
               [exp.Literal_string "v1"; exp.Literal_string "v2"]))
         (exp.GTE (exp.Column "score" "t") (exp.Literal_number (py.Int 0)))).
Proof.
  refine (combined_condition_order sample_builder
    (exp.EQ (exp.Column "field1" "t") (exp.Literal_string "v1"))
    [exp.In (exp.Column "field1" "t")
       [exp.Literal_string "v1"; exp.Literal_string "v2"];
     exp.GTE (exp.Column "score" "t") (exp.Literal_number (py.Int 0))] _ _).
  - reflexivity.
  - repeat constructor.
Defined.

Example projected_columns_sample :
  afv.unique_cols
    {| afv.dataset := sample_dataset;
       afv.filter_expr :=
         {| afv.root :=
              afv.GroupRule "AND"
                [afv.SimpleRule "b" "=" (py.Int 1);
                 afv.GroupRule "OR" [afv.SimpleRule "a" "=" (py.Int 1);
                                     afv.SimpleRule "b" "in" (py.List_ [py.Int 2])];
                 afv.SimpleRule "c" "<" (py.Int 2)] |};
       afv.validation_rules :=
         [afv.NotNullRule "a"; afv.UniqueValuesRule ["z"; "c"; "y"];
          afv.RangeRule "q" (py.Int 1) py.None_] |}
  = ["b"; "a"; "c"; "z"; "y"; "q"].
Proof. by vm_compute. Qed.

(** A boolean, a null and a nested object as the value of a comparison
    leaf are not rejected: each compiles, to a numeric literal, in both
    filter modules (which contradicts C5 as the spec states it). *)
Lemma literal_coercion_accepts_any_value :
  afv.expression sample_dataset (afv.SimpleRule "flag" "=" (py.Bool true)) =
    py.Ok (exp.EQ (exp.Column "flag" "t") (exp.Literal_number (py.Bool true))) ∧
  afv.expression sample_dataset (afv.SimpleRule "flag" "=" py.None_) =
    py.Ok (exp.EQ (exp.Column "flag" "t") (exp.Literal_number py.None_)) ∧
  afv.expression sample_dataset
      (afv.SimpleRule "flag" "=" (py.Dict [("a", py.Int 1)])) =
    py.Ok (exp.EQ (exp.Column "flag" "t")
             (exp.Literal_number (py.Dict [("a", py.Int 1)]))) ∧
  (cbf.parse (filter_json.leaf "flag" "=" (py.Bool true))
     ≫= cbf.expression sample_dataset) =
    py.Ok (exp.EQ (exp.Column "flag" "t") (exp.Literal_number (py.Bool true))).
Proof. by vm_compute. Qed.

Lemma literal_coercion_total_witness :
  afv._to_literal py.None_ = exp.Literal_number py.None_ ∧
  cbf._literal py.None_ = exp.Literal_number py.None_ ∧
  afv.expression sample_dataset (afv.SimpleRule "age" ">=" py.None_) =
    py.Ok (exp.GTE (exp.Column "age" "t") (exp.Literal_number py.None_)) ∧
  (cbf.parse (filter_json.leaf "age" ">=" py.None_) ≫= cbf.expression sample_dataset) =
    py.Ok (exp.GTE (exp.Column "age" "t") (exp.Literal_number py.None_)).
Proof.
  apply (literal_coercion_total sample_dataset "age" ">=" kind_GTE py.None_).
  reflexivity.
Defined.

(** An [IN] leaf over a list whose elements are a list and an object is
    not rejected: no element is checked to be a scalar (which contradicts
    C6 as the spec states it). *)
Lemma membership_elements_unchecked :
  afv.expression sample_dataset
      (afv.SimpleRule "status" "IN" (py.List_ [py.List_ [py.Int 1]; py.Dict []])) =
    py.Ok (exp.In (exp.Column "status" "t")
             [exp.Literal_number (py.List_ [py.Int 1]);
              exp.Literal_number (py.Dict [])]) ∧
  (cbf.parse (filter_json.leaf "status" "IN"
                (py.List_ [py.List_ [py.Int 1]; py.Dict []]))
     ≫= cbf.expression sample_dataset) =
    py.Ok (exp.In (exp.Column "status" "t")
             [exp.Literal_number (py.List_ [py.Int 1]);
              exp.Literal_number (py.Dict [])]).
Proof. by vm_compute. Qed.

Lemma membership_value_check_witness :
  afv.expression sample_dataset (afv.SimpleRule "status" "in" (py.Int 5)) =
    py.Raise (py.ValueError "IN operator requires a sequence of values") ∧
  ((∃ e, afv.expression sample_dataset (afv.SimpleRule "status" "in" (py.Int 5)) =
           py.Raise e) ↔
   (py.is_iterable (py.Int 5) = false ∨ py.is_str_or_bytes (py.Int 5) = true)) ∧
  (py.is_iterable (py.Int 5) = false →
   cbf.parse (filter_json.leaf "status" "in" (py.Int 5)) =
     py.Raise (py.ValueError "IN operator requires a list of values")).
Proof.
  apply (membership_value_check sample_dataset "status" "in" (py.Int 5)).
  reflexivity.
Defined.

(** What [FilterParser] does with a single string as the value of IN: it
    is taken as the sequence of its characters. *)
Example cbf_parse_IN_single_string :
  cbf.parse (filter_json.leaf "status" "IN" (py.Str "ab")) =
    py.Ok (cbf.InFilter "status" [py.Str "a"; py.Str "b"]).
Proof. reflexivity. Qed.

(** An [IN] leaf over the empty list compiles, to a membership predicate
    over no literal (which contradicts C7 as the spec states it). *)
Lemma empty_membership_compiles :
  afv.expression sample_dataset (afv.SimpleRule "status" "IN" (py.List_ [])) =
    py.Ok (exp.In (exp.Column "status" "t") []) ∧
  (cbf.parse (filter_json.leaf "status" "IN" (py.List_ []))
     ≫= cbf.expression sample_dataset) =
    py.Ok (exp.In (exp.Column "status" "t") []).
Proof. by vm_compute. Qed.

Lemma empty_membership_predicate_witness :
  afv.expression sample_dataset (afv.SimpleRule "status" "In" (py.List_ [])) =
    py.Ok (exp.In (afv.column_expr sample_dataset "status") []) ∧
  (cbf.parse (filter_json.leaf "status" "In" (py.List_ []))
     ≫= cbf.expression sample_dataset) =
    py.Ok (exp.In (afv.column_expr sample_dataset "status") []) ∧
  cbf.expression sample_dataset (cbf.InFilter "status" []) =
    py.Ok (exp.In (afv.column_expr sample_dataset "status") []).
Proof.
  apply (empty_membership_predicate sample_dataset "status" "In"). reflexivity.
Defined.

Example range_lower_bound_only :
  (afv.RangeRule_init "score" (py.Int 0) py.None_ ≫= afv.rule_expression sample_dataset) =
    py.Ok (exp.GTE (exp.Column "score" "t") (exp.Literal_number (py.Int 0))).
Proof. reflexivity. Qed.

(** With the operator IN, a leaf that has no value key is parsed by
    [from_json] but its [None] is then rejected at compile time, not
    coerced; [FilterParser] already rejects the leaf at parse time (which
    contradicts C10 as stated). *)
Lemma missing_value_with_IN :
  afv.parse (filter_json.leaf_without_value "status" "IN") =
    py.Ok (afv.SimpleRule "status" "IN" py.None_) ∧
  afv.expression sample_dataset (afv.SimpleRule "status" "IN" py.None_) =
    py.Raise (py.ValueError "IN operator requires a sequence of values") ∧
  cbf.parse (filter_json.leaf_without_value "status" "IN") =
    py.Raise (py.ValueError "IN operator requires a list of values").
Proof. by vm_compute. Qed.

Example missing_value_comparison :
  afv.from_json (filter_json.leaf_without_value "age" ">") =
    py.Ok {| afv.root := afv.SimpleRule "age" ">" py.None_ |} ∧
  afv.expression sample_dataset (afv.SimpleRule "age" ">" py.None_) =
    py.Ok (exp.GT (exp.Column "age" "t") (exp.Literal_number py.None_)).
Proof. by vm_compute. Qed.

Lemma parsed_fields_in_document_order_witness :
  afv.referenced_columns
    {| afv.dataset := sample_dataset;
       afv.filter_expr :=
         {| afv.root :=
              afv.GroupRule "AND"
                [afv.SimpleRule "b" "=" (py.Int 1);
                 afv.GroupRule "OR" [afv.SimpleRule "a" "<" (py.Int 2)]] |};
       afv.validation_rules := [afv.UniqueValuesRule ["z"; "b"]] |} =
  ["b"; "a"; "z"; "b"].
Proof.
  apply (parsed_fields_in_document_order
           (filter_json.group "and"
              [filter_json.leaf "b" "=" (py.Int 1);
               filter_json.group "or" [filter_json.leaf "a" "<" (py.Int 2)]])).
  reflexivity.
Defined.

Lemma class_based_agrees_with_advanced_witness :
  (cbf.parse (filter_json.group "or"
                [filter_json.leaf "a" "in" (py.List_ [py.Int 1]);
                 filter_json.group "AND" []])
     ≫= cbf.expression sample_dataset) =
  py.Ok (exp.Or (exp.In (exp.Column "a" "t") [exp.Literal_number (py.Int 1)])
           (exp.Boolean true)).
Proof.
  apply (class_based_agrees_with_advanced sample_dataset
           (filter_json.group "or"
              [filter_json.leaf "a" "in" (py.List_ [py.Int 1]);
               filter_json.group "AND" []])).
  reflexivity.
Defined.

Lemma validation_modules_agree_witness :
  dv.rule_expression sample_dataset' (dv.RangeRule "score" (py.Int 0) (py.Int 9)) =
    afv.rule_expression sample_dataset (afv.RangeRule "score" (py.Int 0) (py.Int 9)) ∧
  (r ← dv.RangeRule_init "score" py.None_ py.None_; py.Ok (same_rule r)) =
    afv.RangeRule_init "score" py.None_ py.None_.
Proof.
  apply (validation_modules_agree sample_dataset sample_dataset'
           (dv.RangeRule "score" (py.Int 0) (py.Int 9)) "score" py.None_ py.None_).
  reflexivity.
Defined.

Lemma allowed_values_is_membership_witness :
  afv.rule_expression sample_dataset
      (afv.AllowedValuesRule "status" [py.Str "a"; py.Int 2]) =
    afv.expression sample_dataset
      (afv.SimpleRule "status" "in" (py.List_ [py.Str "a"; py.Int 2])).
Proof.
  apply (allowed_values_is_membership sample_dataset "status" "in"). reflexivity.
Defined.

Lemma validator_combined_expression_witness :
  ∃ ps,
    Forall2 (λ rule p, dv.rule_expression sample_dataset' rule = py.Ok p)
      [dv.AllowedValuesRule "status" [py.Str "a"; py.Str "b"];
       dv.RangeRule "score" (py.Int 0) py.None_] ps ∧
    validator.combined_expression sample_validator = py.Ok (fold_under exp.And ps).
Proof.
  apply (validator_combined_expression sample_validator). by repeat constructor.
Defined.

Example validator_projection_NameError :
  validator.generate_sql sample_validator false = inl (validator.NameError "dataset") ∧
  validator.generate_sql sample_validator true =
    inr (exp.Select [exp.Star] (exp.Table "t")
           (exp.And
              (exp.In (exp.Column "status" "t")
                 [exp.Literal_string "a"; exp.Literal_string "b"])
              (exp.GTE (exp.Column "score" "t") (exp.Literal_number (py.Int 0))))).
Proof. by vm_compute. Qed.

Lemma projection_query_shape_witness :
  ∃ columns where_expr,
    exp.Select [exp.Column "field1" "t"; exp.Column "score" "t"] (exp.Table "t")
      (exp.And
         (exp.And (exp.EQ (exp.Column "field1" "t") (exp.Literal_string "v1"))
            (exp.In (exp.Column "field1" "t")
               [exp.Literal_string "v1"; exp.Literal_string "v2"]))
         (exp.GTE (exp.Column "score" "t") (exp.Literal_number (py.Int 0)))) =
      exp.Select columns (afv.table_expr (afv.dataset sample_builder)) where_expr ∧
    NoDup columns ∧
    columns = afv.column_expr (afv.dataset sample_builder) <$> afv.unique_cols sample_builder ∧
    afv.combined_condition sample_builder = py.Ok where_expr ∧
    afv.generate_sql sample_builder true =
      py.Ok (exp.Select [exp.Star] (afv.table_expr (afv.dataset sample_builder)) where_expr).
Proof.
  apply (projection_query_shape sample_builder). by vm_compute.
Defined.

Lemma operator_case_insensitive_witness :
  (is_Some (documented_kind (py.upper "like")) →
   afv.expression sample_dataset (afv.SimpleRule "name" "like" (py.Str "a%")) =
     afv.expression sample_dataset (afv.SimpleRule "name" "LiKe" (py.Str "a%"))) ∧
  cbf.parse (filter_json.Node (Some "name") (Some "like") (Some (py.Str "a%")) None None) =
    cbf.parse (filter_json.Node (Some "name") (Some "LiKe") (Some (py.Str "a%")) None None) ∧
  afv.GroupRule_init "like" [] = afv.GroupRule_init "LiKe" [].
Proof.
  apply (operator_case_insensitive sample_dataset "name" "like" "LiKe").
  reflexivity.
Defined.
